(** * nvme_exporter: the topology resolver and the health-metric extractor

    A shallow embedding of [main.go] (the revision that carries
    [nvmeNamespace] records) and of the parts of its libraries that the
    exporter calls: Go's [strings], [fmt], [strconv] and [regexp],
    [tidwall/gjson] and the constant metrics of the Prometheus client.

    Go strings are [string]; [int64] is [Z] with the wrap-around written
    out where it can occur; [float64] is the primitive binary64 [float].
    [log.Fatal*] and panics end the run: they are the [Fatal] outcome. *)

From Stdlib Require Import List String Ascii ZArith Bool Arith Lia.
From Stdlib Require Import PrimFloat FloatOps SpecFloat.
From Stdlib Require Import DecimalString.
Import ListNotations.

Set Warnings "-register-all,-inexact-float".
Open Scope list_scope.
Open Scope string_scope.

(** ** Ways in which the process ends early *)

Inductive exit : Type :=
| ListJSONInvalid                    (* "nvmeListOutput json is not valid" *)
| DeviceFileFormat (ns : string)     (* "nvme device file [%s] does not match expected format" *)
| NoControllerFound                  (* "No controller found in %s" *)
| NoDevicesFound                     (* "No NVMe Devices found" *)
| ListCommandError                   (* "Error running 'nvme list' command" *)
| IdCtrlCommandError                 (* "Error running 'nvme id-ctrl' command" *)
| SmartLogCommandError (path : string) (* "Error running nvme smart-log command for device %s" *)
| SmartLogJSONInvalid (path : string)  (* "nvmeSmartLog json is not valid for device: %s" *)
| IndexOutOfRange                    (* runtime panic of a slice index *)
| LabelCardinality.                  (* panic of prometheus.MustNewConstMetric *)

Inductive outcome (A : Type) : Type :=
| Ok (a : A)
| Fatal (e : exit).
Arguments Ok {A} a.
Arguments Fatal {A} e.

Definition bind {A B} (m : outcome A) (f : A -> outcome B) : outcome B :=
  match m with
  | Ok a => f a
  | Fatal e => Fatal e
  end.

Declare Scope outcome_scope.
Delimit Scope outcome_scope with outcome.
Notation "x <- m ;; k" := (bind m (fun x => k))
  (at level 61, m at next level, right associativity) : outcome_scope.
Open Scope outcome_scope.

(** Appending the results of [f] on each element to an accumulator, the
    shape of every [for ... range] loop that grows [deviceList]. *)
Fixpoint forRange {A S} (f : S -> A -> outcome S) (xs : list A) (acc : S) : outcome S :=
  match xs with
  | [] => Ok acc
  | x :: xs' => acc' <- f acc x ;; forRange f xs' acc'
  end.

(** ** int64 and float64 *)

Definition int64 (z : Z) : Z := ((z + 2 ^ 63) mod 2 ^ 64 - 2 ^ 63)%Z.

(** The float64 nearest to an integer (ties to even): Go's [float64(n)]
    and the value of an integer literal. *)
Definition float64 (z : Z) : float := SF2Prim (binary_normalize prec emax z 0 false).

(** ** strings, fmt, strconv *)

Module strings.

Fixpoint HasPrefix (s prefix : string) : bool :=
  match prefix, s with
  | EmptyString, _ => true
  | String p prefix', String a s' => Ascii.eqb a p && HasPrefix s' prefix'
  | String _ _, EmptyString => false
  end.

Fixpoint Contains (s substr : string) : bool :=
  HasPrefix s substr ||
  match s with
  | EmptyString => false
  | String _ s' => Contains s' substr
  end.

Fixpoint TrimPrefix (s prefix : string) : option string :=
  match prefix, s with
  | EmptyString, _ => Some s
  | String p prefix', String a s' => if Ascii.eqb a p then TrimPrefix s' prefix' else None
  | String _ _, EmptyString => None
  end.

Fixpoint Split (sep : ascii) (s : string) : list string :=
  match s with
  | EmptyString => [EmptyString]
  | String a s' =>
      if Ascii.eqb a sep then EmptyString :: Split sep s'
      else match Split sep s' with
           | [] => [String a EmptyString]
           | part :: parts => String a part :: parts
           end
  end.

End strings.

Definition isDigit (a : ascii) : bool :=
  (48 <=? nat_of_ascii a)%nat && (nat_of_ascii a <=? 57)%nat.

Definition digitVal (a : ascii) : Z := Z.of_nat (nat_of_ascii a - 48).

Module fmt.
(** [%d] of an [int] *)
Definition d (n : Z) : string := NilZero.string_of_int (Z.to_int n).
End fmt.

Module strconv.

(** gjson's own [parseInt]: an optional minus sign and decimal digits,
    accumulated in int64; anything else is 0. *)
Fixpoint digitsAcc (s : string) (n : Z) : option Z :=
  match s with
  | EmptyString => Some n
  | String a s' => if isDigit a then digitsAcc s' (int64 (n * 10 + digitVal a)) else None
  end.

Definition parseInt (s : string) : Z :=
  match s with
  | EmptyString => 0%Z
  | String "-" EmptyString => 0%Z
  | String "-" s' => match digitsAcc s' 0 with Some n => int64 (n * -1) | None => 0%Z end
  | _ => match digitsAcc s 0 with Some n => n | None => 0%Z end
  end.

(** [strconv.ParseFloat(s, 64)] on decimal spellings: sign, digits with
    an optional point, optional exponent.  The value [m * 10^e] is
    rounded once, to nearest even.  Every other spelling is read as a
    syntax error, for which Go returns 0 (the hexadecimal, infinity and
    NaN spellings that Go also accepts are not covered). *)
Fixpoint mantissa (s : string) (m : Z) (scale : Z) (point seen : bool) : option (Z * Z * string) :=
  match s with
  | EmptyString => if seen then Some (m, scale, s) else None
  | String a s' =>
      if isDigit a then
        mantissa s' (m * 10 + digitVal a)%Z (if point then scale - 1 else scale)%Z point true
      else if Ascii.eqb a "." && negb point then mantissa s' m scale true seen
      else if seen then Some (m, scale, s) else None
  end.

Fixpoint natural (s : string) (n : Z) (seen : bool) : option Z :=
  match s with
  | EmptyString => if seen then Some n else None
  | String a s' => if isDigit a then natural s' (n * 10 + digitVal a)%Z true else None
  end.

Definition exponent (s : string) : option Z :=
  match s with
  | EmptyString => Some 0%Z
  | String c s' =>
      if Ascii.eqb c "e" || Ascii.eqb c "E" then
        match s' with
        | String "-" s'' => option_map Z.opp (natural s'' 0 false)
        | String "+" s'' => natural s'' 0 false
        | _ => natural s' 0 false
        end
      else None
  end.

Definition round (m e : Z) : float :=
  if (0 <=? e)%Z then float64 (m * 10 ^ e)
  else
    let den := (10 ^ (- e))%Z in
    let shift := (64 + Z.log2 den)%Z in
    let q := (Z.shiftl m shift / den)%Z in
    let sticky := if (Z.shiftl m shift mod den =? 0)%Z then 0%Z else 1%Z in
    SF2Prim (binary_normalize prec emax (2 * q + sticky) (- shift - 1) false).

Definition unsigned (s : string) : option float :=
  match mantissa s 0 0 false false with
  | Some (m, scale, rest) =>
      match exponent rest with
      | Some e => Some (round m (scale + e))
      | None => None
      end
  | None => None
  end.

Definition ParseFloat (s : string) : float :=
  match s with
  | String "-" s' => match unsigned s' with Some f => (- f)%float | None => 0%float end
  | String "+" s' => match unsigned s' with Some f => f | None => 0%float end
  | _ => match unsigned s with Some f => f | None => 0%float end
  end.

End strconv.

(** ** regexp: the operators of the one pattern the exporter compiles

    Matching is leftmost-first, as in Go: the start offsets are tried from
    the left, and at each offset the alternatives are explored in the
    order of a backtracking matcher (greedy repetitions take as much as
    they can and give back one character at a time).  Repetition is over
    a character class, which is all the pattern uses. *)

Module regexp.

Inductive Class : Type :=
| AnyCharNotNL            (* .  : any character but a line feed *)
| Digit.                  (* \d : 0-9 *)

Definition inClass (cl : Class) (a : ascii) : bool :=
  match cl with
  | AnyCharNotNL => negb (Ascii.eqb a "010"%char)
  | Digit => isDigit a
  end.

Inductive Regexp : Type :=
| BeginText                         (* ^ *)
| EndText                           (* $ *)
| Literal (lit : string)
| Star (cl : Class)                 (* cl* *)
| Plus (cl : Class)                 (* cl+ *)
| Concat (r1 r2 : Regexp)
| Capture (index : nat) (r : Regexp).

Fixpoint NumSubexp (re : Regexp) : nat :=
  match re with
  | Concat r1 r2 => NumSubexp r1 + NumSubexp r2
  | Capture _ r => S (NumSubexp r)
  | _ => 0
  end.

Section Matcher.
Variable A : Type.

(** [cl*] at offset [pos] of the text, [s] being what is left of it. *)
Fixpoint star (cl : Class) (pos : nat) (s : string)
         (k : nat -> string -> option A) : option A :=
  match s with
  | String a s' =>
      if inClass cl a then
        match star cl (S pos) s' k with
        | Some r => Some r
        | None => k pos s
        end
      else k pos s
  | EmptyString => k pos s
  end.

Fixpoint step (re : Regexp) (pos : nat) (s : string) (caps : list (nat * string))
         (k : nat -> string -> list (nat * string) -> option A) : option A :=
  match re with
  | BeginText => if (pos =? 0)%nat then k pos s caps else None
  | EndText => match s with EmptyString => k pos s caps | String _ _ => None end
  | Literal lit =>
      match strings.TrimPrefix s lit with
      | Some s' => k (pos + String.length lit)%nat s' caps
      | None => None
      end
  | Star cl => star cl pos s (fun pos' s' => k pos' s' caps)
  | Plus cl =>
      match s with
      | String a s' =>
          if inClass cl a then star cl (S pos) s' (fun pos' s' => k pos' s' caps)
          else None
      | EmptyString => None
      end
  | Concat r1 r2 =>
      step r1 pos s caps (fun pos' s' caps' => step r2 pos' s' caps' k)
  | Capture i r =>
      step r pos s caps
           (fun pos' s' caps' => k pos' s' ((i, substring 0 (pos' - pos) s) :: caps'))
  end.
End Matcher.
Arguments star {A} cl pos s k.
Arguments step {A} re pos s caps k.

Fixpoint group (i : nat) (caps : list (nat * string)) : string :=
  match caps with
  | [] => ""
  | (j, text) :: caps' => if (i =? j)%nat then text else group i caps'
  end.

Definition matchAt (re : Regexp) (pos : nat) (s : string) : option (list string) :=
  step re pos s []
       (fun pos' _ caps =>
          Some (substring 0 (pos' - pos) s
                :: map (fun i => group i caps) (seq 1 (NumSubexp re)))).

Fixpoint search (re : Regexp) (pos : nat) (s : string) : list string :=
  match matchAt re pos s with
  | Some matches => matches
  | None =>
      match s with
      | String _ s' => search re (S pos) s'
      | EmptyString => []
      end
  end.

(** The whole match followed by the text of each group; [nil] when the
    text has no match. *)
Definition FindStringSubmatch (re : Regexp) (s : string) : list string :=
  search re 0 s.

End regexp.

(** ** gjson

    A document is modelled by the value it denotes.  Objects keep their
    members in source order, duplicates included.  Number literals are
    the integral ones (byte counts, block counts, counters, Kelvin
    readings); [Number 1765656] also stands for a literal such as
    [1765656.0], which gjson reads the same way. *)

Module gjson.

Inductive json : Type :=
| JNull
| JBool (b : bool)
| JNumber (n : Z)
| JString (str : string)
| JArray (elems : list json)
| JObject (members : list (string * json)).

(** [Result.Type] *)
Inductive Type_ : Type := Null | False | Number | String | True | JSON.

(** The text of a value, without insignificant white space: what
    [Result.Raw] holds for a document written compactly. *)
Definition dquote : ascii := ascii_of_nat 34.

Definition quote (s : string) : string :=
  let fix esc (s : string) : string :=
    match s with
    | EmptyString => EmptyString
    | String.String a s' =>
        if Ascii.eqb a dquote || Ascii.eqb a "\"
        then String.String "\" (String.String a (esc s'))
        else String.String a (esc s')
    end in
  String.String dquote (esc s ++ String.String dquote EmptyString).

Fixpoint Raw (j : json) : string :=
  match j with
  | JNull => "null"
  | JBool true => "true"
  | JBool false => "false"
  | JNumber n => fmt.d n
  | JString str => quote str
  | JArray elems =>
      "[" ++ (fix items (l : list json) : string :=
                match l with
                | [] => ""
                | [x] => Raw x
                | x :: l' => Raw x ++ "," ++ items l'
                end) elems ++ "]"
  | JObject members =>
      "{" ++ (fix items (l : list (string * json)) : string :=
                match l with
                | [] => ""
                | [(k, x)] => quote k ++ ":" ++ Raw x
                | (k, x) :: l' => quote k ++ ":" ++ Raw x ++ "," ++ items l'
                end) members ++ "}"
  end.

Module Result.

(** A [gjson.Result]: [None] is the result of a path that matched
    nothing (its [Exists] is false). *)
Definition t : Type := option json.

Definition Exists (r : t) : bool :=
  match r with Some _ => true | None => false end.

(** the field [Type] *)
Definition Type_ (r : t) : gjson.Type_ :=
  match r with
  | None | Some JNull => Null
  | Some (JBool true) => True
  | Some (JBool false) => False
  | Some (JNumber _) => Number
  | Some (JString _) => String
  | Some (JArray _) | Some (JObject _) => JSON
  end.

(** [Array]: the elements of an array; nothing for null or a missing
    value; any other value as the only element. *)
Definition Array (r : t) : list t :=
  match r with
  | None | Some JNull => []
  | Some (JArray elems) => map Some elems
  | Some j => [Some j]
  end.

Definition Int (r : t) : Z :=
  match r with
  | Some (JBool true) => 1%Z
  | Some (JString str) => strconv.parseInt str
  | Some (JNumber n) => int64 n
  | _ => 0%Z
  end.

Definition Float (r : t) : float :=
  match r with
  | Some (JBool true) => 1%float
  | Some (JString str) => strconv.ParseFloat str
  | Some (JNumber n) => float64 n
  | _ => 0%float
  end.

Definition String (r : t) : string :=
  match r with
  | None | Some JNull => ""
  | Some (JBool true) => "true"
  | Some (JBool false) => "false"
  | Some (JString str) => str
  | Some j => Raw j
  end.

End Result.

(** A Go string handed to [Valid] and [Get].  A text that is not JSON
    is known by what [Get] happens to find in it, which gjson leaves
    unspecified. *)
Inductive text : Type :=
| Malformed (found : string -> Result.t)
| Document (j : json).

Definition Valid (json : text) : bool :=
  match json with
  | Document _ => true
  | Malformed _ => false
  end.

Definition parseUint (s : string) : option nat :=
  match s with
  | EmptyString => None
  | _ => option_map Z.to_nat (strconv.digitsAcc s 0)
  end.

Definition keep (rs : list Result.t) : list json :=
  flat_map (fun r => match r with Some j => [j] | None => [] end) rs.

(** One path component at a time.  In an object the first member with
    the key, under which the rest of the path matches, is taken.  In an
    array [#] counts the elements when it ends the path, and otherwise
    gathers, in order, what the rest of the path finds in each element
    that has it; a number selects an element. *)
Fixpoint find (path : list string) (j : json) : Result.t :=
  match path with
  | [] => Some j
  | part :: more =>
      match j with
      | JObject members =>
          (fix scan (ms : list (string * json)) : Result.t :=
             match ms with
             | [] => None
             | (key, value) :: ms' =>
                 if String.eqb key part then
                   match find more value with
                   | Some r => Some r
                   | None => scan ms'
                   end
                 else scan ms'
             end) members
      | JArray elems =>
          if String.eqb part "#" then
            match more with
            | [] => Some (JNumber (Z.of_nat (List.length elems)))
            | _ :: _ => Some (JArray (keep (map (find more) elems)))
            end
          else
            match parseUint part with
            | Some n =>
                match nth_error elems n with
                | Some value => find more value
                | None => None
                end
            | None => None
            end
      | _ => None
      end
  end.

Definition Get (json : text) (path : string) : Result.t :=
  match json with
  | Document j => find (strings.Split "." path) j
  | Malformed found => found path
  end.

(** [x.String()] passed back to [Get]: an object or an array is its own
    document; the text of a scalar holds nothing to descend into (a
    string value is not read again as JSON). *)
Definition reread (r : Result.t) : text :=
  match r with
  | Some (JArray elems) => Document (JArray elems)
  | Some (JObject members) => Document (JObject members)
  | _ => Malformed (fun _ => None)
  end.

End gjson.

(** ** prometheus: descriptors and constant metrics *)

Module prometheus.

Inductive ValueType : Type := CounterValue | GaugeValue | UntypedValue.

Record Desc : Type := NewDesc {
  fqName : string;
  help : string;
  variableLabels : list string
}.

Record Metric : Type := ConstMetric {
  desc : Desc;
  valType : ValueType;
  value : float;
  labelValues : list string
}.

(** Panics when the label values do not fit the descriptor. *)
Definition MustNewConstMetric (desc : Desc) (valueType : ValueType) (value : float)
           (labelValues : list string) : outcome Metric :=
  if (List.length labelValues =? List.length (variableLabels desc))%nat
  then Ok (ConstMetric desc valueType value labelValues)
  else Fatal LabelCardinality.

End prometheus.

Import prometheus.

(** ** main.go *)

Definition labelsDevice : list string := ["device"].
Definition labelsDeviceController : list string := ["device"; "controller"].
Definition labelsController : list string := ["controller"].
Definition maxTempSensors : nat := 8.

Record nvmeNamespace : Type := {
  devicePath : string;
  nsController : string;
  nsPhysicalSize : Z;
  nsTotalCapacity : Z;
  nsMaximumLBA : Z;
  nsUsedBytes : Z;
  nsSectorSize : Z
}.

Record nvmeCollector : Type := {
  nvmeCriticalWarning : Desc;
  nvmeAvailableSpare : Desc;
  nvmeTempThreshold : Desc;
  nvmeReliabilityDegraded : Desc;
  nvmeRO : Desc;
  nvmeVMBUFailed : Desc;
  nvmePMRRO : Desc;
  nvmeTemperature : Desc;
  nvmeAvailSpare : Desc;
  nvmeSpareThresh : Desc;
  nvmePercentUsed : Desc;
  nvmeEnduranceGrpCriticalWarningSummary : Desc;
  nvmeDataUnitsRead : Desc;
  nvmeDataUnitsWritten : Desc;
  nvmeHostReadCommands : Desc;
  nvmeHostWriteCommands : Desc;
  nvmeControllerBusyTime : Desc;
  nvmePowerCycles : Desc;
  nvmePowerOnHours : Desc;
  nvmeUnsafeShutdowns : Desc;
  nvmeMediaErrors : Desc;
  nvmeNumErrLogEntries : Desc;
  nvmeWarningTempTime : Desc;
  nvmeCriticalCompTime : Desc;
  nvmeTemperatureSensors : list Desc;
  nvmeThmTemp1TransCount : Desc;
  nvmeThmTemp2TransCount : Desc;
  nvmeThmTemp1TotalTime : Desc;
  nvmeThmTemp2TotalTime : Desc;
  nvmeNSPhysicalSize : Desc;
  nvmeNSMaximumLBA : Desc;
  nvmeNSUsedBytes : Desc;
  nvmeNSSectorSize : Desc;
  nvmeTotalCapacity : Desc;
  temperatureScale : string
}.

(** The descriptor built in the loop of [newNvmeCollector] for sensor [i]. *)
Definition sensorDescription (temperatureScale : string) (i : nat) : Desc :=
  NewDesc ("nvme_temperature_sensor" ++ fmt.d (Z.of_nat i))
          ("Temperature reported by thermal sensor #" ++ fmt.d (Z.of_nat i)
             ++ " in degrees " ++ temperatureScale)
          labelsDevice.

Definition newNvmeCollector (temperatureScale : string) : nvmeCollector :=
  let sensorDescriptions := map (sensorDescription temperatureScale) (seq 1 maxTempSensors) in
  {| temperatureScale := temperatureScale;
     nvmeCriticalWarning :=
       NewDesc "nvme_critical_warning"
               "Critical warnings for the state of the controller" labelsDevice;
     nvmeAvailableSpare :=
       NewDesc "nvme_available_spare_critical"
               "Has the 'available_spare' value dropped below 'spare_thresh'" labelsDevice;
     nvmeTempThreshold :=
       NewDesc "nvme_temp_threshold_exceeded"
               "Temperature has exceeded the safe threshold" labelsDevice;
     nvmeReliabilityDegraded :=
       NewDesc "nvme_reliability_degraded"
               "Device has degraded reliability due to excessive media/internal errors"
               labelsDevice;
     nvmeRO := NewDesc "nvme_readonly" "NVMe device is currently read-only" labelsDevice;
     nvmeVMBUFailed :=
       NewDesc "nvme_vmbu_failed"
               "The 'Volatile Memory Backup Device' has failed, if present" labelsDevice;
     nvmePMRRO :=
       NewDesc "nvme_pmr_ro" "The Persistent Memory Region is currently read-only"
               labelsDevice;
     nvmeTemperature :=
       NewDesc "nvme_temperature" ("Temperature in degrees " ++ temperatureScale)
               labelsDevice;
     nvmeAvailSpare :=
       NewDesc "nvme_avail_spare"
               "Normalized percentage of remaining spare capacity available" labelsDevice;
     nvmeSpareThresh :=
       NewDesc "nvme_spare_thresh"
               "Async event completion may occur when avail spare < threshold" labelsDevice;
     nvmePercentUsed :=
       NewDesc "nvme_percent_used"
               "Vendor specific estimate of the percentage of life used" labelsDevice;
     nvmeEnduranceGrpCriticalWarningSummary :=
       NewDesc "nvme_endurance_grp_critical_warning_summary"
               "Critical warnings for the state of endurance groups" labelsDevice;
     nvmeDataUnitsRead :=
       NewDesc "nvme_data_units_read" "Number of 512 byte data units host has read"
               labelsDevice;
     nvmeDataUnitsWritten :=
       NewDesc "nvme_data_units_written"
               "Number of 512 byte data units the host has written" labelsDevice;
     nvmeHostReadCommands :=
       NewDesc "nvme_host_read_commands" "Number of read commands completed" labelsDevice;
     nvmeHostWriteCommands :=
       NewDesc "nvme_host_write_commands" "Number of write commands completed" labelsDevice;
     nvmeControllerBusyTime :=
       NewDesc "nvme_controller_busy_time"
               "Amount of time in minutes controller busy with IO commands" labelsDevice;
     nvmePowerCycles := NewDesc "nvme_power_cycles" "Number of power cycles" labelsDevice;
     nvmePowerOnHours := NewDesc "nvme_power_on_hours" "Number of power on hours" labelsDevice;
     nvmeUnsafeShutdowns :=
       NewDesc "nvme_unsafe_shutdowns" "Number of unsafe shutdowns" labelsDevice;
     nvmeMediaErrors :=
       NewDesc "nvme_media_errors" "Number of unrecovered data integrity errors" labelsDevice;
     nvmeNumErrLogEntries :=
       NewDesc "nvme_num_err_log_entries" "Lifetime number of error log entries" labelsDevice;
     nvmeWarningTempTime :=
       NewDesc "nvme_warning_temp_time"
               "Amount of time in minutes temperature > warning threshold" labelsDevice;
     nvmeCriticalCompTime :=
       NewDesc "nvme_critical_comp_time"
               "Amount of time in minutes temperature > critical threshold" labelsDevice;
     nvmeTemperatureSensors := sensorDescriptions;
     nvmeThmTemp1TransCount :=
       NewDesc "nvme_thm_temp1_trans_count"
               "Number of times controller transitioned to lower power" labelsDevice;
     nvmeThmTemp2TransCount :=
       NewDesc "nvme_thm_temp2_trans_count"
               "Number of times controller transitioned to lower power" labelsDevice;
     nvmeThmTemp1TotalTime :=
       NewDesc "nvme_thm_temp1_trans_time"
               "Total number of seconds controller transitioned to lower power" labelsDevice;
     nvmeThmTemp2TotalTime :=
       NewDesc "nvme_thm_temp2_trans_time"
               "Total number of seconds controller transitioned to lower power" labelsDevice;
     nvmeNSPhysicalSize :=
       NewDesc "nvme_namespace_physical_size" "Size of a namespace in bytes"
               labelsDeviceController;
     nvmeNSMaximumLBA :=
       NewDesc "nvme_namespace_maximum_lba" "Maximum LBA of a namespace, in blocks"
               labelsDeviceController;
     nvmeNSUsedBytes :=
       NewDesc "nvme_namespace_used_bytes" "Number of bytes used in this namespace"
               labelsDeviceController;
     nvmeNSSectorSize :=
       NewDesc "nvme_namespace_sector_size" "Size of a sector in bytes"
               labelsDeviceController;
     nvmeTotalCapacity :=
       NewDesc "nvme_total_capacity" "Total capacity of an nvme device in bytes"
               labelsController
  |}.

(** The two conversions of [makeMetric], in the order of its two tests. *)
Definition makeMetric (c : nvmeCollector) (description : Desc) (valType : ValueType)
           (result : gjson.text) (substring : string) (label : string) : outcome Metric :=
  let value := gjson.Result.Float (gjson.Get result substring) in
  let value :=
    if strings.Contains substring "temperature" then
      (* Leave it alone, if it's in Kelvin, change if it's celsius or fahrenheit *)
      let value :=
        if String.eqb (temperatureScale c) "celsius" then (value - 273)%float else value in
      let value :=
        if String.eqb (temperatureScale c) "fahrenheit"
        then ((value - 0x1.1126666666666p+8) * 9 / 5 + 32)%float   (* 273.15 *)
        else value in
      value
    else value in
  MustNewConstMetric description valType value [label].

(** ^.*(nvme\d+).*\d+$ *)
Definition controllerPattern : regexp.Regexp :=
  regexp.Concat regexp.BeginText
   (regexp.Concat (regexp.Star regexp.AnyCharNotNL)
     (regexp.Concat
        (regexp.Capture 1 (regexp.Concat (regexp.Literal "nvme") (regexp.Plus regexp.Digit)))
        (regexp.Concat (regexp.Star regexp.AnyCharNotNL)
           (regexp.Concat (regexp.Plus regexp.Digit) regexp.EndText)))).

(** We don't always get the controller explicitly; try guess it from the
    namespace device *)
Definition getControllerFromNs (ns : string) : outcome string :=
  let re := controllerPattern in
  let matches := regexp.FindStringSubmatch re ns in
  if (1 <? List.length matches)%nat then Ok (nth 1 matches "")
  else Fatal (DeviceFileFormat ns).

(** *** getDeviceList *)

(** The record built for a namespace entry, once its controller is known. *)
Definition namespaceDevice (namespace : gjson.Result.t) (ns controller : string) : nvmeNamespace :=
  {| devicePath := "/dev/" ++ ns;
     nsPhysicalSize := gjson.Result.Int (gjson.Get (gjson.reread namespace) "PhysicalSize");
     nsUsedBytes := gjson.Result.Int (gjson.Get (gjson.reread namespace) "UsedBytes");
     nsSectorSize := gjson.Result.Int (gjson.Get (gjson.reread namespace) "SectorSize");
     nsMaximumLBA := gjson.Result.Int (gjson.Get (gjson.reread namespace) "MaximumLBA");
     nsController := controller;
     nsTotalCapacity := 0 |}.

(** The body of the innermost loop over [Devices.#.Subsystems.#.Namespaces]. *)
Definition appendSubsystemNamespace (deviceList : list nvmeNamespace)
           (namespace : gjson.Result.t) : outcome (list nvmeNamespace) :=
  let ns := gjson.Result.String (gjson.Get (gjson.reread namespace) "NameSpace") in
  controller <- getControllerFromNs ns ;;
  let device := namespaceDevice namespace ns controller in
  Ok (deviceList ++ [device])%list.

(** Some namespaces are not attached to a controller, like remote
    lightbits ones: the loops over [Devices.#.Subsystems.#.Namespaces]. *)
Definition rangeSubsystemNamespaces (devices : gjson.Result.t)
           (deviceList : list nvmeNamespace) : outcome (list nvmeNamespace) :=
  forRange (fun deviceList subsystems =>
    forRange (fun deviceList namespaces =>
      forRange appendSubsystemNamespace (gjson.Result.Array namespaces) deviceList)
    (gjson.Result.Array subsystems) deviceList)
  (gjson.Result.Array devices) deviceList.

(** The body of the loop over the namespaces of a controller. *)
Definition appendControllerNamespace (controllerID : string)
           (deviceList : list nvmeNamespace) (namespace : gjson.Result.t)
  : outcome (list nvmeNamespace) :=
  let ns := gjson.Result.String (gjson.Get (gjson.reread namespace) "NameSpace") in
  let device := namespaceDevice namespace ns controllerID in
  Ok (deviceList ++ [device])%list.

(** The body of the loop over the controllers of a subsystem. *)
Definition appendController (deviceList : list nvmeNamespace) (controller : gjson.Result.t)
  : outcome (list nvmeNamespace) :=
  let controllerID :=
    gjson.Result.String (gjson.Get (gjson.reread controller) "Controller") in
  if String.eqb controllerID EmptyString then Fatal NoControllerFound
  else
    let namespaces := gjson.Get (gjson.reread controller) "Namespaces" in
    forRange (appendControllerNamespace controllerID)
             (gjson.Result.Array namespaces) deviceList.

(** Most namespaces are attached to a local controller, on newer versions
    of nvme-cli: the loops over [Devices.#.Subsystems.#.Controllers]. *)
Definition rangeControllerNamespaces (devices : gjson.Result.t)
           (deviceList : list nvmeNamespace) : outcome (list nvmeNamespace) :=
  forRange (fun deviceList subsystems =>
    forRange (fun deviceList controllers =>
      forRange appendController (gjson.Result.Array controllers) deviceList)
    (gjson.Result.Array subsystems) deviceList)
  (gjson.Result.Array devices) deviceList.

(** The body of the loop over [Devices.#.DevicePath]. *)
Definition appendDevicePath (deviceList : list nvmeNamespace) (devicePath : gjson.Result.t)
  : outcome (list nvmeNamespace) :=
  controller <- getControllerFromNs (gjson.Result.String devicePath) ;;
  let device :=
    {| devicePath := gjson.Result.String devicePath;
       nsController := controller;
       nsPhysicalSize := -1;
       nsUsedBytes := -1;
       nsSectorSize := -1;
       nsMaximumLBA := -1;
       nsTotalCapacity := 0 |} in
  Ok (deviceList ++ [device])%list.

(** Older versions of nvme-cli just export Devices & DevicePaths, without
    hierarchy: the loop over [Devices.#.DevicePath]. *)
Definition rangeDevicePaths (devices : gjson.Result.t)
           (deviceList : list nvmeNamespace) : outcome (list nvmeNamespace) :=
  forRange appendDevicePath (gjson.Result.Array devices) deviceList.

Definition getDeviceList (nvmeListOutput : gjson.text) : outcome (list nvmeNamespace) :=
  if negb (gjson.Valid nvmeListOutput) then Fatal ListJSONInvalid
  else
    let deviceList : list nvmeNamespace := [] in
    let devices := gjson.Get nvmeListOutput "Devices.#.Subsystems.#.Namespaces" in
    deviceList <-
      (if (0 <? List.length (gjson.Result.Array devices))%nat
       then rangeSubsystemNamespaces devices deviceList
       else Ok deviceList) ;;
    let devices := gjson.Get nvmeListOutput "Devices.#.Subsystems.#.Controllers" in
    if (0 <? List.length (gjson.Result.Array devices))%nat then
      deviceList <- rangeControllerNamespaces devices deviceList ;;
      Ok deviceList
    else
      let devices := gjson.Get nvmeListOutput "Devices.#.DevicePath" in
      if (0 <? List.length (gjson.Result.Array devices))%nat then
        deviceList <- rangeDevicePaths devices deviceList ;;
        Ok deviceList
      else Fatal NoDevicesFound.

(** *** Collect

    [Collect] starts commands and sends metrics on [ch].  A run is
    followed by what it has done so far; the system it runs on answers
    each command, given the commands started before it. *)

Record trace : Type := {
  commands : list (list string);   (* the argument vectors, oldest first *)
  ch : list Metric                 (* the metrics sent, oldest first *)
}.

(** [exec.Command(name, arg...).Output()]: [None] is a non-nil [err]. *)
Definition system : Type := list (list string) -> list string -> option gjson.text.

Definition run (A : Type) : Type := trace -> outcome A * trace.

Definition ret {A} (a : A) : run A := fun t => (Ok a, t).

Definition fatal {A} (e : exit) : run A := fun t => (Fatal e, t).

Definition andThen {A B} (m : run A) (f : A -> run B) : run B :=
  fun t =>
    match m t with
    | (Ok a, t') => f a t'
    | (Fatal e, t') => (Fatal e, t')
    end.

Notation "x <~ m ;; k" := (andThen m (fun x => k))
  (at level 61, m at next level, right associativity) : outcome_scope.
Notation "m >> k" := (andThen m (fun _ => k))
  (at level 61, right associativity) : outcome_scope.

Definition lift {A} (m : outcome A) : run A :=
  fun t => (m, t).

(** [ch <- metric], the metric being built first. *)
Definition send (metric : outcome Metric) : run unit :=
  fun t =>
    match metric with
    | Ok m => (Ok tt, {| commands := commands t; ch := (ch t ++ [m])%list |})
    | Fatal e => (Fatal e, t)
    end.

Definition Output (os : system) (argv : list string) : run (option gjson.text) :=
  fun t => (Ok (os (commands t) argv),
            {| commands := (commands t ++ [argv])%list; ch := ch t |}).

(** update nvmeDeviceList from 'nvme id-ctrl' (for now, Total Capacity):
    the loop assigns [nvmeDeviceList[id].nsTotalCapacity] for each index
    [id] in turn, which leaves the list below with each record updated. *)
Fixpoint rangeIdCtrl (os : system) (nvmeDeviceList : list nvmeNamespace)
  : run (list nvmeNamespace) :=
  match nvmeDeviceList with
  | [] => ret []
  | nvmeDevice :: rest =>
      output <~ Output os ["nvme"; "id-ctrl"; "-o"; "json"; "/dev/" ++ nsController nvmeDevice] ;;
      match output with
      | None => fatal IdCtrlCommandError
      | Some nvmeIDCtrlOutput =>
          let updated :=
            {| devicePath := devicePath nvmeDevice;
               nsController := nsController nvmeDevice;
               nsPhysicalSize := nsPhysicalSize nvmeDevice;
               nsTotalCapacity := gjson.Result.Int (gjson.Get nvmeIDCtrlOutput "tnvmcap");
               nsMaximumLBA := nsMaximumLBA nvmeDevice;
               nsUsedBytes := nsUsedBytes nvmeDevice;
               nsSectorSize := nsSectorSize nvmeDevice |} in
          rest' <~ rangeIdCtrl os rest ;;
          ret (updated :: rest')
      end
  end.

Definition temperatureSensor (i : nat) : string :=
  "temperature_sensor_" ++ fmt.d (Z.of_nat i).

Definition index {A} (l : list A) (i : nat) : outcome A :=
  match nth_error l i with
  | Some x => Ok x
  | None => Fatal IndexOutOfRange
  end.

(** [for i := 1; i <= maxTempSensors; i++], with [left] iterations left
    at index [i]. *)
Fixpoint rangeSensors (c : nvmeCollector) (nvmeSmartLogText : gjson.text) (path : string)
         (left : nat) (i : nat) : run unit :=
  match left with
  | O => ret tt
  | S left' =>
      let tempValue := gjson.Get nvmeSmartLogText (temperatureSensor i) in
      if negb (gjson.Result.Exists tempValue) then ret tt   (* break *)
      else
        send (description <- index (nvmeTemperatureSensors c) (i - 1) ;;
              makeMetric c description GaugeValue nvmeSmartLogText (temperatureSensor i) path) >>
        rangeSensors c nvmeSmartLogText path left' (S i)
  end.

(** The metrics of one smart-log, from the validity test down to the
    thermal times. *)
Definition collectSmartLog (c : nvmeCollector) (nvmeSmartLogText : gjson.text)
           (path : string) : run unit :=
  if negb (gjson.Valid nvmeSmartLogText) then fatal (SmartLogJSONInvalid path)
  else
    let nvmeCriticalWarning_ := gjson.Get nvmeSmartLogText "critical_warning" in
    match gjson.Result.Type_ nvmeCriticalWarning_ with
    | gjson.JSON =>
        (* It's the new format, where 'critical' is a full JSON section *)
        let section := gjson.reread nvmeCriticalWarning_ in
        send (makeMetric c (nvmeCriticalWarning c) GaugeValue section "value" path) >>
        send (makeMetric c (nvmeAvailableSpare c) GaugeValue section "available_spare" path) >>
        send (makeMetric c (nvmeTempThreshold c) GaugeValue section "temp_threshold" path) >>
        send (makeMetric c (nvmeReliabilityDegraded c) GaugeValue section "reliability_degraded" path) >>
        send (makeMetric c (nvmeRO c) GaugeValue section "ro" path) >>
        send (makeMetric c (nvmeVMBUFailed c) GaugeValue section "vmbu_failed" path) >>
        send (makeMetric c (nvmePMRRO c) GaugeValue section "pmr_ro" path) >>
        rangeSensors c nvmeSmartLogText path maxTempSensors 1
    | _ =>
        send (makeMetric c (nvmeCriticalWarning c) GaugeValue nvmeSmartLogText "critical_warning" path)
    end >>
    send (makeMetric c (nvmeTemperature c) GaugeValue nvmeSmartLogText "temperature" path) >>
    send (makeMetric c (nvmeAvailSpare c) GaugeValue nvmeSmartLogText "avail_spare" path) >>
    send (makeMetric c (nvmeSpareThresh c) GaugeValue nvmeSmartLogText "spare_thresh" path) >>
    send (makeMetric c (nvmePercentUsed c) GaugeValue nvmeSmartLogText "percent_used" path) >>
    send (makeMetric c (nvmeEnduranceGrpCriticalWarningSummary c) GaugeValue nvmeSmartLogText "endurance_grp_critical_warning_summary" path) >>
    send (makeMetric c (nvmeDataUnitsRead c) CounterValue nvmeSmartLogText "data_units_read" path) >>
    send (makeMetric c (nvmeDataUnitsWritten c) CounterValue nvmeSmartLogText "data_units_written" path) >>
    send (makeMetric c (nvmeHostReadCommands c) CounterValue nvmeSmartLogText "host_read_commands" path) >>
    send (makeMetric c (nvmeHostWriteCommands c) CounterValue nvmeSmartLogText "host_write_commands" path) >>
    send (makeMetric c (nvmeControllerBusyTime c) CounterValue nvmeSmartLogText "controller_busy_time" path) >>
    send (makeMetric c (nvmePowerCycles c) CounterValue nvmeSmartLogText "power_cycles" path) >>
    send (makeMetric c (nvmePowerOnHours c) CounterValue nvmeSmartLogText "power_on_hours" path) >>
    send (makeMetric c (nvmeUnsafeShutdowns c) CounterValue nvmeSmartLogText "unsafe_shutdowns" path) >>
    send (makeMetric c (nvmeMediaErrors c) CounterValue nvmeSmartLogText "media_errors" path) >>
    send (makeMetric c (nvmeNumErrLogEntries c) CounterValue nvmeSmartLogText "num_err_log_entries" path) >>
    send (makeMetric c (nvmeWarningTempTime c) CounterValue nvmeSmartLogText "warning_temp_time" path) >>
    send (makeMetric c (nvmeCriticalCompTime c) CounterValue nvmeSmartLogText "critical_comp_time" path) >>
    send (makeMetric c (nvmeThmTemp1TransCount c) CounterValue nvmeSmartLogText "thm_temp1_trans_count" path) >>
    send (makeMetric c (nvmeThmTemp2TransCount c) CounterValue nvmeSmartLogText "thm_temp2_trans_count" path) >>
    send (makeMetric c (nvmeThmTemp1TotalTime c) CounterValue nvmeSmartLogText "thm_temp3_total_time" path) >>
    send (makeMetric c (nvmeThmTemp2TotalTime c) CounterValue nvmeSmartLogText "thm_temp1_total_time" path).

(** [controllerCapacity[key] = capacity] on a map kept as its entries in
    the order the keys came in. *)
Fixpoint assign (m : list (string * Z)) (key : string) (capacity : Z) : list (string * Z) :=
  match m with
  | [] => [(key, capacity)]
  | (k, v) :: m' =>
      if String.eqb k key then (k, capacity) :: m' else (k, v) :: assign m' key capacity
  end.

(** The body of the loop over the devices. *)
Definition collectDevice (c : nvmeCollector) (os : system) (nvmeDevice : nvmeNamespace)
           (controllerCapacity : list (string * Z)) : run (list (string * Z)) :=
  let path := devicePath nvmeDevice in
  output <~ Output os ["nvme"; "smart-log"; path; "-o"; "json"] ;;
  match output with
  | None => fatal (SmartLogCommandError path)
  | Some nvmeSmartLogText =>
      collectSmartLog c nvmeSmartLogText path >>
      send (MustNewConstMetric (nvmeNSMaximumLBA c) GaugeValue
              (float64 (nsMaximumLBA nvmeDevice)) [path; nsController nvmeDevice]) >>
      send (MustNewConstMetric (nvmeNSUsedBytes c) GaugeValue
              (float64 (nsUsedBytes nvmeDevice)) [path; nsController nvmeDevice]) >>
      send (MustNewConstMetric (nvmeNSSectorSize c) GaugeValue
              (float64 (nsSectorSize nvmeDevice)) [path; nsController nvmeDevice]) >>
      send (MustNewConstMetric (nvmeNSPhysicalSize c) GaugeValue
              (float64 (nsPhysicalSize nvmeDevice)) [path; nsController nvmeDevice]) >>
      ret (assign controllerCapacity (nsController nvmeDevice) (nsTotalCapacity nvmeDevice))
  end.

Fixpoint rangeDevices (c : nvmeCollector) (os : system) (nvmeDeviceList : list nvmeNamespace)
         (controllerCapacity : list (string * Z)) : run (list (string * Z)) :=
  match nvmeDeviceList with
  | [] => ret controllerCapacity
  | nvmeDevice :: rest =>
      controllerCapacity' <~ collectDevice c os nvmeDevice controllerCapacity ;;
      rangeDevices c os rest controllerCapacity'
  end.

(** The last loop ranges over a Go map, whose order is not specified; the
    entries are sent here in the order the controllers were first seen. *)
Fixpoint rangeCapacity (c : nvmeCollector) (controllerCapacity : list (string * Z)) : run unit :=
  match controllerCapacity with
  | [] => ret tt
  | (controller, capacity) :: rest =>
      send (MustNewConstMetric (nvmeTotalCapacity c) GaugeValue (float64 capacity) [controller]) >>
      rangeCapacity c rest
  end.

Definition Collect (c : nvmeCollector) (os : system) : run unit :=
  output <~ Output os ["nvme"; "list"; "-o"; "json"] ;;
  match output with
  | None => fatal ListCommandError
  | Some nvmeListOutput =>
      (* Populate initial data from 'nvme list' *)
      nvmeDeviceList <~ lift (getDeviceList nvmeListOutput) ;;
      nvmeDeviceList <~ rangeIdCtrl os nvmeDeviceList ;;
      controllerCapacity <~ rangeDevices c os nvmeDeviceList [] ;;
      rangeCapacity c controllerCapacity
  end.

From Stdlib Require Import Permutation.

(** *** Describe

    [Describe] sends descriptors on a channel of its own; a run is
    followed by the descriptors sent so far. *)

Definition announce (description : outcome Desc) (ch : list Desc)
  : outcome unit * list Desc :=
  match description with
  | Ok d => (Ok tt, (ch ++ [d])%list)
  | Fatal e => (Fatal e, ch)
  end.

(** [for i := 1; i <= maxTempSensors; i++], with [left] iterations left
    at index [i]. *)
Fixpoint describeSensors (c : nvmeCollector) (left : nat) (i : nat) (ch : list Desc)
  : outcome unit * list Desc :=
  match left with
  | O => (Ok tt, ch)
  | S left' =>
      match announce (index (nvmeTemperatureSensors c) (i - 1)) ch with
      | (Ok _, ch') => describeSensors c left' (S i) ch'
      | (Fatal e, ch') => (Fatal e, ch')
      end
  end.

Definition Describe (c : nvmeCollector) (ch : list Desc) : outcome unit * list Desc :=
  let ch :=
    (ch ++ [ nvmeCriticalWarning c;
             nvmeAvailableSpare c;
             nvmeTempThreshold c;
             nvmeReliabilityDegraded c;
             nvmeRO c;
             nvmeVMBUFailed c;
             nvmePMRRO c;
             nvmeTemperature c;
             nvmeAvailSpare c;
             nvmeSpareThresh c;
             nvmePercentUsed c;
             nvmeEnduranceGrpCriticalWarningSummary c;
             nvmeDataUnitsRead c;
             nvmeDataUnitsWritten c;
             nvmeHostReadCommands c;
             nvmeHostWriteCommands c;
             nvmeControllerBusyTime c;
             nvmePowerCycles c;
             nvmePowerOnHours c;
             nvmeUnsafeShutdowns c;
             nvmeMediaErrors c;
             nvmeNumErrLogEntries c;
             nvmeWarningTempTime c;
             nvmeCriticalCompTime c ])%list in
  match describeSensors c maxTempSensors 1 ch with
  | (Ok _, ch) =>
      (Ok tt,
       (ch ++ [ nvmeThmTemp1TransCount c;
                nvmeThmTemp2TransCount c;
                nvmeThmTemp1TotalTime c;
                nvmeThmTemp2TotalTime c;
                nvmeNSPhysicalSize c;
                nvmeNSMaximumLBA c;
                nvmeNSUsedBytes c;
                nvmeNSSectorSize c;
                nvmeTotalCapacity c ])%list)
  | (Fatal e, ch) => (Fatal e, ch)
  end.

(** ** The earlier main.go

    The sources hold an earlier main.go before the one above; its
    [getDeviceList] returns the device paths alone and knows no
    controller. *)

Module previous.

(** [for _, x := range xs { deviceList = append(deviceList, f x) }] *)
Definition rangeAppend (f : gjson.Result.t -> string) (xs : list gjson.Result.t)
           (deviceList : list string) : list string :=
  fold_left (fun deviceList x => (deviceList ++ [f x])%list) xs deviceList.

Definition getDeviceList (nvmeListOutput : gjson.text) : outcome (list string) :=
  if negb (gjson.Valid nvmeListOutput) then Fatal ListJSONInvalid
  else
    let deviceList : list string := [] in
    let nvmeJsonDeviceList :=
      gjson.Result.Array (gjson.Get nvmeListOutput "Devices.#.DevicePath") in
    if (0 <? List.length nvmeJsonDeviceList)%nat then
      Ok (rangeAppend gjson.Result.String nvmeJsonDeviceList deviceList)
    else
      let devices :=
        gjson.Get nvmeListOutput "Devices.#.Subsystems.#.Namespaces.#.NameSpace" in
      let deviceList :=
        if (0 <? List.length (gjson.Result.Array devices))%nat then
          fold_left (fun deviceList subsystems =>
            fold_left (fun deviceList namespaces =>
              rangeAppend (fun namespace => "/dev/" ++ gjson.Result.String namespace)
                          (gjson.Result.Array namespaces) deviceList)
            (gjson.Result.Array subsystems) deviceList)
          (gjson.Result.Array devices) deviceList
        else deviceList in
      if (0 <? List.length deviceList)%nat then Ok deviceList
      else
        (* Some machines have multiple controllers, and 'nvme list -o json'
           adds them in, changing the output format *)
        let devices :=
          gjson.Get nvmeListOutput
                    "Devices.#.Subsystems.#.Controllers.#.Namespaces.#.NameSpace" in
        if (0 <? List.length (gjson.Result.Array devices))%nat then
          Ok (fold_left (fun deviceList subsystems =>
                fold_left (fun deviceList controllers =>
                  fold_left (fun deviceList namespaces =>
                    rangeAppend (fun namespace => "/dev/" ++ gjson.Result.String namespace)
                                (gjson.Result.Array namespaces) deviceList)
                  (gjson.Result.Array controllers) deviceList)
                (gjson.Result.Array subsystems) deviceList)
              (gjson.Result.Array devices) deviceList)
        else Fatal NoDevicesFound.

End previous.

(** * Statements

    The notions the properties below are stated with. *)

(** ** The controller pattern *)

Fixpoint all (p : ascii -> bool) (s : string) : bool :=
  match s with
  | EmptyString => true
  | String a s' => p a && all p s'
  end.

(** A non-empty run of decimal digits. *)
Definition numeral (s : string) : Prop :=
  s <> EmptyString /\ all isDigit s = true.

(** The text holds a controller token [nvmeN] followed, at some distance,
    by a numeric suffix that ends it. *)
Definition hasControllerToken (ns : string) : Prop :=
  exists before N between suffix,
    ns = before ++ "nvme" ++ N ++ between ++ suffix /\ numeral N /\ numeral suffix.

(** ** Health-log samples *)

(** The trace after some more metrics were sent. *)
Definition sent (t : trace) (metrics : list Metric) : trace :=
  {| commands := commands t; ch := (ch t ++ metrics)%list |}.

(** The conversion of a Kelvin reading, as the specification words it:
    minus 273 for celsius, (K - 273.15) * 9 / 5 + 32 for fahrenheit, and
    the reading itself for any other scale.  The operations are those of
    float64. *)
Definition fromKelvin (scale : string) (kelvin : float) : float :=
  if String.eqb scale "celsius" then (kelvin - 273)%float
  else if String.eqb scale "fahrenheit"
       then ((kelvin - 0x1.1126666666666p+8) * 9 / 5 + 32)%float
       else kelvin.

(** What is sent for a field of a document: its float reading, converted
    when the name of the field contains "temperature". *)
Definition reading (scale : string) (result : gjson.text) (field : string) : float :=
  let value := gjson.Result.Float (gjson.Get result field) in
  if strings.Contains field "temperature" then fromKelvin scale value else value.

Definition sample (scale : string) (result : gjson.text) (path : string)
           (row : Desc * ValueType * string) : Metric :=
  let '(description, valType, field) := row in
  ConstMetric description valType (reading scale result field) [path].

(** The sub-fields of a nested critical_warning with their descriptors. *)
Definition criticalWarningFields (c : nvmeCollector) : list (Desc * ValueType * string) :=
  [ (nvmeCriticalWarning c, GaugeValue, "value");
    (nvmeAvailableSpare c, GaugeValue, "available_spare");
    (nvmeTempThreshold c, GaugeValue, "temp_threshold");
    (nvmeReliabilityDegraded c, GaugeValue, "reliability_degraded");
    (nvmeRO c, GaugeValue, "ro");
    (nvmeVMBUFailed c, GaugeValue, "vmbu_failed");
    (nvmePMRRO c, GaugeValue, "pmr_ro") ].

(** The fields that every smart-log is asked for, in the order sent. *)
Definition healthFields (c : nvmeCollector) : list (Desc * ValueType * string) :=
  [ (nvmeTemperature c, GaugeValue, "temperature");
    (nvmeAvailSpare c, GaugeValue, "avail_spare");
    (nvmeSpareThresh c, GaugeValue, "spare_thresh");
    (nvmePercentUsed c, GaugeValue, "percent_used");
    (nvmeEnduranceGrpCriticalWarningSummary c, GaugeValue,
     "endurance_grp_critical_warning_summary");
    (nvmeDataUnitsRead c, CounterValue, "data_units_read");
    (nvmeDataUnitsWritten c, CounterValue, "data_units_written");
    (nvmeHostReadCommands c, CounterValue, "host_read_commands");
    (nvmeHostWriteCommands c, CounterValue, "host_write_commands");
    (nvmeControllerBusyTime c, CounterValue, "controller_busy_time");
    (nvmePowerCycles c, CounterValue, "power_cycles");
    (nvmePowerOnHours c, CounterValue, "power_on_hours");
    (nvmeUnsafeShutdowns c, CounterValue, "unsafe_shutdowns");
    (nvmeMediaErrors c, CounterValue, "media_errors");
    (nvmeNumErrLogEntries c, CounterValue, "num_err_log_entries");
    (nvmeWarningTempTime c, CounterValue, "warning_temp_time");
    (nvmeCriticalCompTime c, CounterValue, "critical_comp_time");
    (nvmeThmTemp1TransCount c, CounterValue, "thm_temp1_trans_count");
    (nvmeThmTemp2TransCount c, CounterValue, "thm_temp2_trans_count");
    (nvmeThmTemp1TotalTime c, CounterValue, "thm_temp3_total_time");
    (nvmeThmTemp2TotalTime c, CounterValue, "thm_temp1_total_time") ].

(** The sample of temperature sensor [i]. *)
Definition sensorSample (scale : string) (result : gjson.text) (path : string) (i : nat)
  : Metric :=
  sample scale result path (sensorDescription scale i, GaugeValue, temperatureSensor i).

(** How far the scan of the sensors gets: the number of fields
    [temperature_sensor_i], [temperature_sensor_(i+1)], ... found before
    the first one that is missing, at most [left]. *)
Fixpoint sensorsFound (result : gjson.text) (left i : nat) : nat :=
  match left with
  | O => O
  | S left' =>
      if gjson.Result.Exists (gjson.Get result (temperatureSensor i))
      then S (sensorsFound result left' (S i))
      else O
  end.

(** Metrics told apart by the name of their descriptor. *)
Definition named (names : list string) (m : Metric) : bool :=
  existsb (String.eqb (fqName (desc m))) names.




(** What is sent for critical_warning: the sub-fields of the section and
    the sensors found when it is an object or an array, the field itself
    otherwise. *)
Definition criticalWarningSamples (scale : string) (result : gjson.text) (path : string)
  : list Metric :=
  let c := newNvmeCollector scale in
  let criticalWarning := gjson.Get result "critical_warning" in
  match gjson.Result.Type_ criticalWarning with
  | gjson.JSON =>
      (map (sample scale (gjson.reread criticalWarning) path) (criticalWarningFields c)
       ++ map (sensorSample scale result path)
              (seq 1 (sensorsFound result maxTempSensors 1)))%list
  | _ => [sample scale result path (nvmeCriticalWarning c, GaugeValue, "critical_warning")]
  end.

(** ** Documents used as examples *)

Definition emptyTrace : trace := {| commands := []; ch := [] |}.

(** The new style smart-log quoted in [Collect], with one more sensor
    above a gap. *)
Definition newStyleSmartLog : gjson.json :=
  gjson.JObject
    [ ("critical_warning",
       gjson.JObject
         [ ("value", gjson.JNumber 0); ("available_spare", gjson.JNumber 0);
           ("temp_threshold", gjson.JNumber 0); ("reliability_degraded", gjson.JNumber 0);
           ("ro", gjson.JNumber 0); ("vmbu_failed", gjson.JNumber 0);
           ("pmr_ro", gjson.JNumber 0) ]);
      ("temperature", gjson.JNumber 296);
      ("avail_spare", gjson.JNumber 100);
      ("spare_thresh", gjson.JNumber 10);
      ("percent_used", gjson.JNumber 0);
      ("endurance_grp_critical_warning_summary", gjson.JNumber 0);
      ("data_units_read", gjson.JNumber 4540);
      ("data_units_written", gjson.JNumber 16778);
      ("host_read_commands", gjson.JNumber 151174);
      ("host_write_commands", gjson.JNumber 99578);
      ("controller_busy_time", gjson.JNumber 1);
      ("power_cycles", gjson.JNumber 31);
      ("power_on_hours", gjson.JNumber 907);
      ("unsafe_shutdowns", gjson.JNumber 24);
      ("media_errors", gjson.JNumber 0);
      ("num_err_log_entries", gjson.JNumber 0);
      ("warning_temp_time", gjson.JNumber 0);
      ("critical_comp_time", gjson.JNumber 0);
      ("temperature_sensor_1", gjson.JNumber 302);
      ("temperature_sensor_2", gjson.JNumber 298);
      ("temperature_sensor_3", gjson.JNumber 296);
      ("temperature_sensor_5", gjson.JNumber 300);
      ("thm_temp1_trans_count", gjson.JNumber 0);
      ("thm_temp2_trans_count", gjson.JNumber 0);
      ("thm_temp1_total_time", gjson.JNumber 11);
      ("thm_temp2_total_time", gjson.JNumber 22) ].


(** A smart-log that reports 296 Kelvin, and one that reports nothing. *)
Definition kelvin296 : gjson.text :=
  gjson.Document (gjson.JObject [("temperature", gjson.JNumber 296)]).



(** ** Capacity lookups *)

(** The command that asks a controller for its capacity. *)
Definition idCtrl (controller : string) : list string :=
  ["nvme"; "id-ctrl"; "-o"; "json"; "/dev/" ++ controller].




(** A machine with one controller, nvme0, that holds two namespaces. *)
Definition twoNamespacesList : gjson.json :=
  gjson.JObject
    [ ("Devices",
       gjson.JArray
         [ gjson.JObject
             [ ("Subsystems",
                gjson.JArray
                  [ gjson.JObject
                      [ ("Subsystem", gjson.JString "nvme-subsys0");
                        ("Controllers",
                         gjson.JArray
                           [ gjson.JObject
                               [ ("Controller", gjson.JString "nvme0");
                                 ("Namespaces",
                                  gjson.JArray
                                    [ gjson.JObject
                                        [ ("NameSpace", gjson.JString "nvme0n1");
                                          ("UsedBytes", gjson.JNumber 4096);
                                          ("MaximumLBA", gjson.JNumber 1024);
                                          ("PhysicalSize", gjson.JNumber 524288);
                                          ("SectorSize", gjson.JNumber 512) ];
                                      gjson.JObject
                                        [ ("NameSpace", gjson.JString "nvme0n2");
                                          ("UsedBytes", gjson.JNumber 8192);
                                          ("MaximumLBA", gjson.JNumber 2048);
                                          ("PhysicalSize", gjson.JNumber 1048576);
                                          ("SectorSize", gjson.JNumber 512) ] ]) ] ]);
                        ("Namespaces", gjson.JArray []) ] ]) ] ]) ].

Definition twoNamespaces : system :=
  fun _ argv =>
    match argv with
    | [_; "list"; _; _] => Some (gjson.Document twoNamespacesList)
    | [_; "id-ctrl"; _; _; _] =>
        Some (gjson.Document (gjson.JObject [("tnvmcap", gjson.JNumber 1572864)]))
    | _ => Some (gjson.Document newStyleSmartLog)
    end.


(** ** Inventory documents *)

(** The first member of an object with the given key. *)
Fixpoint field (key : string) (members : list (string * gjson.json)) : option gjson.json :=
  match members with
  | [] => None
  | (k, v) :: members' => if String.eqb k key then Some v else field key members'
  end.

(** The first failure, or all the results in order. *)
Fixpoint traverse {A B} (f : A -> outcome B) (l : list A) : outcome (list B) :=
  match l with
  | [] => Ok []
  | x :: l' => y <- f x ;; ys <- traverse f l' ;; Ok (y :: ys)
  end.

(** A loop body that only appends to the list it is given. *)
Definition appends {A X} (f : list A -> X -> outcome (list A)) : Prop :=
  forall acc x, f acc x = (ys <- f [] x ;; Ok (acc ++ ys)%list).

(** An entry of the flat legacy shape: an object that exposes its
    DevicePath and has no subsystems. *)
Definition legacyEntry (path : string) (entry : gjson.json) : Prop :=
  exists members,
    entry = gjson.JObject members /\
    field "DevicePath" members = Some (gjson.JString path) /\
    field "Subsystems" members = None.

(** The record of a flat legacy entry: the path as it is, the controller
    inferred from it, and -1 for every size. *)
Definition legacyDevice (path : string) : outcome nvmeNamespace :=
  controller <- getControllerFromNs path ;;
  Ok {| devicePath := path;
        nsController := controller;
        nsPhysicalSize := -1;
        nsUsedBytes := -1;
        nsSectorSize := -1;
        nsMaximumLBA := -1;
        nsTotalCapacity := 0 |}.

(** The records each branch of [getDeviceList] finds in a document,
    starting from an empty list. *)
Definition fromNamespaces (j : gjson.json) : outcome (list nvmeNamespace) :=
  rangeSubsystemNamespaces
    (gjson.Get (gjson.Document j) "Devices.#.Subsystems.#.Namespaces") [].

Definition fromControllers (j : gjson.json) : outcome (list nvmeNamespace) :=
  rangeControllerNamespaces
    (gjson.Get (gjson.Document j) "Devices.#.Subsystems.#.Controllers") [].

Definition fromDevicePaths (j : gjson.json) : outcome (list nvmeNamespace) :=
  rangeDevicePaths (gjson.Get (gjson.Document j) "Devices.#.DevicePath") [].

(** Whether the query of the controller branch, or of the flat legacy
    branch, finds anything to range over. *)
Definition controllersMatch (j : gjson.json) : bool :=
  (0 <? List.length
          (gjson.Result.Array
             (gjson.Get (gjson.Document j) "Devices.#.Subsystems.#.Controllers")))%nat.

Definition devicePathsMatch (j : gjson.json) : bool :=
  (0 <? List.length
          (gjson.Result.Array (gjson.Get (gjson.Document j) "Devices.#.DevicePath")))%nat.

(** The claim that a branch which yields records shuts out the branches
    after it. *)
Definition branchesExclusive : Prop :=
  (forall j records,
      fromNamespaces j = Ok records -> records <> [] ->
      getDeviceList (gjson.Document j) = Ok records) /\
  (forall j records,
      fromNamespaces j = Ok [] -> fromControllers j = Ok records -> records <> [] ->
      getDeviceList (gjson.Document j) = Ok records).

(** What an inventory tells of a namespace. *)
Record namespaceFields : Type := {
  NameSpace : string;
  UsedBytes : Z;
  MaximumLBA : Z;
  PhysicalSize : Z;
  SectorSize : Z
}.

Definition namespaceEntry (fields : namespaceFields) (entry : gjson.json) : Prop :=
  exists members,
    entry = gjson.JObject members /\
    field "NameSpace" members = Some (gjson.JString (NameSpace fields)) /\
    field "UsedBytes" members = Some (gjson.JNumber (UsedBytes fields)) /\
    field "MaximumLBA" members = Some (gjson.JNumber (MaximumLBA fields)) /\
    field "PhysicalSize" members = Some (gjson.JNumber (PhysicalSize fields)) /\
    field "SectorSize" members = Some (gjson.JNumber (SectorSize fields)).

(** The record of a namespace under a controller. *)
Definition namespaceRecord (fields : namespaceFields) (controller : string) : nvmeNamespace :=
  {| devicePath := "/dev/" ++ NameSpace fields;
     nsController := controller;
     nsPhysicalSize := int64 (PhysicalSize fields);
     nsUsedBytes := int64 (UsedBytes fields);
     nsSectorSize := int64 (SectorSize fields);
     nsMaximumLBA := int64 (MaximumLBA fields);
     nsTotalCapacity := 0 |}.

(** A list that an object does not have, or has empty. *)
Definition lists (key : string) (members : list (string * gjson.json))
           (elems : list gjson.json) : Prop :=
  field key members = Some (gjson.JArray elems) \/ (elems = [] /\ field key members = None).




(** An inventory of one host with the given subsystems. *)
Definition hostOf (subsystems : list gjson.json) (j : gjson.json) : Prop :=
  exists top host,
    j = gjson.JObject top /\
    field "Devices" top = Some (gjson.JArray [gjson.JObject host]) /\
    field "Subsystems" host = Some (gjson.JArray subsystems).


(** The inventory of [TestGetDeviceListV1]: the flat legacy shape. *)
Definition oldDevicesJson : gjson.json :=
  gjson.JObject
    [ ("Devices",
       gjson.JArray
         [ gjson.JObject
             [ ("NameSpace", gjson.JNumber 1);
               ("DevicePath", gjson.JString "/dev/nvme0n1");
               ("Firmware", gjson.JString "XXXXXXXX");
               ("ModelNumber", gjson.JString "XXXXXXX");
               ("SerialNumber", gjson.JString "XXXXXXX");
               ("UsedBytes", gjson.JNumber (-2147483648));
               ("MaximumLBA", gjson.JNumber 1875385008);
               ("PhysicalSize", gjson.JNumber (-2147483648));
               ("SectorSize", gjson.JNumber 512) ] ]) ].

(** The first subsystem of [TestGetDeviceListV4]: its namespace nvme9n1 is
    listed under the subsystem, and none under its controllers. *)
Definition lightbitsSubsystem : gjson.json :=
  gjson.JObject
    [ ("Subsystem", gjson.JString "nvme-subsys9");
      ("SubsystemNQN",
       gjson.JString "nqn.2016-01.com.lightbitslabs:uuid:696-aa11-4912-acf9-eb2cfcd");
      ("Controllers",
       gjson.JArray
         [ gjson.JObject
             [ ("Controller", gjson.JString "nvme0");
               ("Cntlid", gjson.JString "566");
               ("SerialNumber", gjson.JString "6ab81c478ac");
               ("ModelNumber", gjson.JString "Lightbits LightOS");
               ("Firmware", gjson.JString "3.6");
               ("Transport", gjson.JString "tcp");
               ("Address", gjson.JString "traddr=10.50.4.15,trsvcid=4421");
               ("Slot", gjson.JString EmptyString);
               ("Namespaces", gjson.JArray []);
               ("Paths",
                gjson.JArray
                  [ gjson.JObject
                      [ ("Path", gjson.JString "nvme9c0n1");
                        ("ANAState", gjson.JString "inaccessible") ] ]) ];
           gjson.JObject
             [ ("Controller", gjson.JString "nvme10");
               ("Cntlid", gjson.JString "390");
               ("SerialNumber", gjson.JString "69a8c48ac");
               ("ModelNumber", gjson.JString "Lightbits LightOS");
               ("Firmware", gjson.JString "3.6");
               ("Transport", gjson.JString "tcp");
               ("Address", gjson.JString "traddr=10.50.4.14,trsvcid=4421");
               ("Slot", gjson.JString EmptyString);
               ("Namespaces", gjson.JArray []);
               ("Paths", gjson.JArray []) ];
           gjson.JObject
             [ ("Controller", gjson.JString "nvme11");
               ("Cntlid", gjson.JString "3843");
               ("SerialNumber", gjson.JString "69a8c48ac");
               ("ModelNumber", gjson.JString "Lightbits LightOS");
               ("Firmware", gjson.JString "3.6");
               ("Transport", gjson.JString "tcp");
               ("Address", gjson.JString "traddr=10.50.4.13,trsvcid=4420");
               ("Slot", gjson.JString EmptyString);
               ("Namespaces", gjson.JArray []);
               ("Paths",
                gjson.JArray
                  [ gjson.JObject
                      [ ("Path", gjson.JString "nvme9c11n1");
                        ("ANAState", gjson.JString "optimized") ] ]) ];
           gjson.JObject
             [ ("Controller", gjson.JString "nvme9");
               ("Cntlid", gjson.JString "5126");
               ("SerialNumber", gjson.JString "69a8c48ac");
               ("ModelNumber", gjson.JString "Lightbits LightOS");
               ("Firmware", gjson.JString "3.6");
               ("Transport", gjson.JString "tcp");
               ("Address", gjson.JString "traddr=10.50.4.11,trsvcid=4421");
               ("Slot", gjson.JString EmptyString);
               ("Namespaces", gjson.JArray []);
               ("Paths", gjson.JArray []) ] ]);
      ("Namespaces",
       gjson.JArray
         [ gjson.JObject
             [ ("NameSpace", gjson.JString "nvme9n1");
               ("Generic", gjson.JString "ng9n1");
               ("NSID", gjson.JNumber 29017);
               ("UsedBytes", gjson.JNumber 137438953472);
               ("MaximumLBA", gjson.JNumber 268435456);
               ("PhysicalSize", gjson.JNumber 137438953472);
               ("SectorSize", gjson.JNumber 512) ] ]) ].

(** The second subsystem of [TestGetDeviceListV4]: its namespace nvme3n1
    is listed under its controller nvme3. *)
Definition micronSubsystem : gjson.json :=
  gjson.JObject
    [ ("Subsystem", gjson.JString "nvme-subsys3");
      ("SubsystemNQN",
       gjson.JString "nqn.2016-08.com.micron:nvme:nvm-subsystem-sn-2402473F6E8C");
      ("Controllers",
       gjson.JArray
         [ gjson.JObject
             [ ("Controller", gjson.JString "nvme3");
               ("Cntlid", gjson.JString "0");
               ("SerialNumber", gjson.JString "24023F6EC");
               ("ModelNumber", gjson.JString "Micron_7450_MTF960TFR");
               ("Firmware", gjson.JString "EMU20");
               ("Transport", gjson.JString "pcie");
               ("Address", gjson.JString "0000:4f:00.0");
               ("Slot", gjson.JString "12");
               ("Namespaces",
                gjson.JArray
                  [ gjson.JObject
                      [ ("NameSpace", gjson.JString "nvme3n1");
                        ("Generic", gjson.JString "ng3n1");
                        ("NSID", gjson.JNumber 1);
                        ("UsedBytes", gjson.JNumber 7486193664);
                        ("MaximumLBA", gjson.JNumber 1875385008);
                        ("PhysicalSize", gjson.JNumber 960197124096);
                        ("SectorSize", gjson.JNumber 512) ] ]);
               ("Paths", gjson.JArray []) ] ]);
      ("Namespaces", gjson.JArray []) ].

(** An inventory of one host with the given subsystems. *)
Definition hostInventory (subsystems : list gjson.json) : gjson.json :=
  gjson.JObject
    [ ("Devices",
       gjson.JArray
         [ gjson.JObject
             [ ("HostNQN", gjson.JString "2f91420a-922f-5e49-b86e-b6bdc2f62412");
               ("HostID", gjson.JString "95a57b1a-be86-4528-b093-57c49ee379d6");
               ("Subsystems", gjson.JArray subsystems) ] ]) ].

(** The inventory of [TestGetDeviceListV4], and the same with its two
    subsystems in the other order. *)
Definition mixedDevicesJson : gjson.json :=
  hostInventory [lightbitsSubsystem; micronSubsystem].


(** The namespaces of [TestGetDeviceListV4]. *)
Definition nvme9n1 : namespaceFields :=
  {| NameSpace := "nvme9n1"; UsedBytes := 137438953472; MaximumLBA := 268435456;
     PhysicalSize := 137438953472; SectorSize := 512 |}.

Definition nvme3n1 : namespaceFields :=
  {| NameSpace := "nvme3n1"; UsedBytes := 7486193664; MaximumLBA := 1875385008;
     PhysicalSize := 960197124096; SectorSize := 512 |}.


(** * Further statements *)

(** ** More about the controller pattern *)

(** A text without a line feed, which is what [.] matches. *)
Definition noLineFeed (s : string) : Prop :=
  all (regexp.inClass regexp.AnyCharNotNL) s = true.




(** ** More about inventories *)

(** A record as [getDeviceList] leaves it: it names its controller, and
    its total capacity is not known yet. *)
Definition freshRecord (device : nvmeNamespace) : Prop :=
  nsController device <> EmptyString /\ nsTotalCapacity device = 0%Z.

(** What an inventory tells of a controller and of a subsystem: the
    namespaces a subsystem lists itself, and its controllers with the
    namespaces each lists.  A controller without a name has the empty
    name. *)
Record controllerShape : Type := {
  ctrlName : string;
  ctrlNamespaces : list namespaceFields
}.

Record subsystemShape : Type := {
  bareNamespaces : list namespaceFields;
  controllers : list controllerShape
}.

Definition controllerOf (shape : controllerShape) (entry : gjson.json) : Prop :=
  exists members namespaces,
    entry = gjson.JObject members /\
    (field "Controller" members = Some (gjson.JString (ctrlName shape)) \/
     (ctrlName shape = EmptyString /\ field "Controller" members = None)) /\
    lists "Namespaces" members namespaces /\
    Forall2 namespaceEntry (ctrlNamespaces shape) namespaces.

Definition subsystemOf (shape : subsystemShape) (entry : gjson.json) : Prop :=
  exists members namespaces entries,
    entry = gjson.JObject members /\
    lists "Namespaces" members namespaces /\
    Forall2 namespaceEntry (bareNamespaces shape) namespaces /\
    lists "Controllers" members entries /\
    Forall2 controllerOf (controllers shape) entries.

Definition namesItself (shape : controllerShape) : Prop := ctrlName shape <> EmptyString.

(** The namespaces that the subsystems list themselves, and the
    controllers of the subsystems, in document order. *)
Definition allBareNamespaces (shapes : list subsystemShape) : list namespaceFields :=
  List.concat (map bareNamespaces shapes).

Definition allControllers (shapes : list subsystemShape) : list controllerShape :=
  List.concat (map controllers shapes).

(** The record of a namespace that a subsystem lists itself: its
    controller is inferred from its name. *)
Definition inferredRecord (fields : namespaceFields) : outcome nvmeNamespace :=
  controller <- getControllerFromNs (NameSpace fields) ;;
  Ok (namespaceRecord fields controller).

(** The records of the namespaces that a controller lists. *)
Definition controllerRecords (shape : controllerShape) : list nvmeNamespace :=
  map (fun fields => namespaceRecord fields (ctrlName shape)) (ctrlNamespaces shape).

Definition namedRecords (shape : controllerShape) : outcome (list nvmeNamespace) :=
  if String.eqb (ctrlName shape) EmptyString then Fatal NoControllerFound
  else Ok (controllerRecords shape).

(** The two subsystems of [TestGetDeviceListV4], as shapes, and the
    second with a controller that has lost its name. *)
Definition idle (name : string) : controllerShape :=
  {| ctrlName := name; ctrlNamespaces := [] |}.

Definition lightbitsShape : subsystemShape :=
  {| bareNamespaces := [nvme9n1];
     controllers := [idle "nvme0"; idle "nvme10"; idle "nvme11"; idle "nvme9"] |}.

Definition micronShape : subsystemShape :=
  {| bareNamespaces := [];
     controllers := [{| ctrlName := "nvme3"; ctrlNamespaces := [nvme3n1] |}] |}.

Definition namelessSubsystem : gjson.json :=
  gjson.JObject
    [ ("Subsystem", gjson.JString "nvme-subsys4");
      ("Controllers",
       gjson.JArray
         [ gjson.JObject
             [ ("Transport", gjson.JString "pcie");
               ("Namespaces", gjson.JArray []) ] ]) ].

Definition namelessShape : subsystemShape :=
  {| bareNamespaces := []; controllers := [idle EmptyString] |}.

(** An entry of [Devices] that none of the three queries reads: an
    object with no [Subsystems] and no [DevicePath]. *)
Definition unrecognised (entry : gjson.json) : Prop :=
  exists members,
    entry = gjson.JObject members /\
    field "Subsystems" members = None /\ field "DevicePath" members = None.

(** An inventory with nothing that the queries read: no [Devices], or
    only entries that are not recognised. *)
Definition nothingRecognised (top : list (string * gjson.json)) : Prop :=
  field "Devices" top = None \/
  exists entries,
    field "Devices" top = Some (gjson.JArray entries) /\ Forall unrecognised entries.

(** ** What a poll starts and sends *)

(** The commands of [Collect] other than the capacity lookup. *)
Definition nvmeList : list string := ["nvme"; "list"; "-o"; "json"].

Definition smartLog (path : string) : list string :=
  ["nvme"; "smart-log"; path; "-o"; "json"].





(** The map of capacities after the loop over the records. *)
Definition capacities (devices : list nvmeNamespace) (m : list (string * Z))
  : list (string * Z) :=
  fold_left (fun m device => assign m (nsController device) (nsTotalCapacity device))
            devices m.

(** What a run adds to the trace, and how it may end: the metrics sent
    satisfy [Pm], the commands started [Pc], and the exit, if the run
    ends with one, [Pe]. *)
Definition within {A} (Pe : exit -> Prop) (Pm : Metric -> Prop)
           (Pc : list string -> Prop) (m : run A) : Prop :=
  forall t, exists metrics argvs,
    ch (snd (m t)) = (ch t ++ metrics)%list /\
    commands (snd (m t)) = (commands t ++ argvs)%list /\
    Forall Pm metrics /\ Forall Pc argvs /\
    forall e, fst (m t) = Fatal e -> Pe e.


(** The exits of [Collect] before it reads any smart-log. *)
Definition early (e : exit) : Prop :=
  match e with
  | ListCommandError | ListJSONInvalid | DeviceFileFormat _ | NoControllerFound
  | NoDevicesFound | IdCtrlCommandError => True
  | _ => False
  end.

(** The descriptors that [Describe] announces for the collector that
    [newNvmeCollector] builds. *)
Definition announced (scale : string) : list Desc :=
  snd (Describe (newNvmeCollector scale) []).

(** A metric that fits the announcement: its descriptor is announced
    and it has a value for each label of the descriptor. *)
Definition described (scale : string) (m : Metric) : Prop :=
  In (desc m) (announced scale) /\
  List.length (labelValues m) = List.length (variableLabels (desc m)).



(** Two records of one controller that were told different capacities. *)
Definition sharedController : list nvmeNamespace :=
  [ {| devicePath := "/dev/nvme0n1"; nsController := "nvme0"; nsPhysicalSize := 524288;
       nsTotalCapacity := 1572864; nsMaximumLBA := 1024; nsUsedBytes := 4096;
       nsSectorSize := 512 |};
    {| devicePath := "/dev/nvme0n2"; nsController := "nvme0"; nsPhysicalSize := 1048576;
       nsTotalCapacity := 3145728; nsMaximumLBA := 2048; nsUsedBytes := 8192;
       nsSectorSize := 512 |} ].

(** The exits of [Collect] while it reads the smart-logs. *)
Definition late (e : exit) : Prop :=
  exists path, e = SmartLogCommandError path \/ e = SmartLogJSONInvalid path.

(** The commands that [Collect] starts. *)
Definition isSmartLog (argv : list string) : Prop := exists path, argv = smartLog path.

Definition isLookup (argv : list string) : Prop := exists controller, argv = idCtrl controller.

Definition knownCommand (argv : list string) : Prop :=
  argv = nvmeList \/ isLookup argv \/ isSmartLog argv.

(** [Collect] in two phases: the inventory with the capacity lookups,
    and the smart-logs with the capacities. *)
Definition inventoryPhase (os : system) : run (list nvmeNamespace) :=
  output <~ Output os ["nvme"; "list"; "-o"; "json"] ;;
  match output with
  | None => fatal ListCommandError
  | Some nvmeListOutput =>
      nvmeDeviceList <~ lift (getDeviceList nvmeListOutput) ;;
      rangeIdCtrl os nvmeDeviceList
  end.

Definition healthPhase (c : nvmeCollector) (os : system)
           (nvmeDeviceList : list nvmeNamespace) : run unit :=
  controllerCapacity <~ rangeDevices c os nvmeDeviceList [] ;;
  rangeCapacity c controllerCapacity.

(** A machine whose controllers do not answer. *)
Definition silentControllers : system :=
  fun _ argv =>
    match argv with
    | [_; "list"; _; _] => Some (gjson.Document twoNamespacesList)
    | _ => None
    end.

(** The fields that [Collect] reads by a fixed name: the sub-fields of a
    nested critical_warning, the field critical_warning itself, and the
    fields of every smart-log. *)
Definition fieldsRead (c : nvmeCollector) : list string :=
  (map snd (criticalWarningFields c) ++ ["critical_warning"] ++ map snd (healthFields c))%list.

(** ** The earlier [getDeviceList] *)

(** An entry of [Devices] that exposes a DevicePath, whatever else it
    holds. *)
Definition pathEntry (path : string) (entry : gjson.json) : Prop :=
  exists members,
    entry = gjson.JObject members /\
    field "DevicePath" members = Some (gjson.JString path).

(** The device paths of namespaces. *)
Definition devicePaths (namespaces : list namespaceFields) : list string :=
  map (fun fields => "/dev/" ++ NameSpace fields) namespaces.

(** The namespaces that the controllers of the subsystems list, in
    document order. *)
Definition allControllerNamespaces (shapes : list subsystemShape) : list namespaceFields :=
  List.concat (map ctrlNamespaces (allControllers shapes)).

(** Two entries of [Devices] that expose a DevicePath, the second of no
    known form and with subsystems beside it. *)
Definition pathsDevicesJson : gjson.json :=
  gjson.JObject
    [ ("Devices",
       gjson.JArray
         [ gjson.JObject [("DevicePath", gjson.JString "/dev/nvme0n1")];
           gjson.JObject
             [ ("DevicePath", gjson.JString "/dev/disk");
               ("Subsystems", gjson.JArray [micronSubsystem]) ] ]) ].


(** * Properties *)

(** ** Strings *)


Lemma append_nil_r (a : string) : a ++ EmptyString = a.
Proof. induction a as [|x a IH]; simpl; [reflexivity | now rewrite IH]. Qed.

Lemma length_append (a b : string) :
  String.length (a ++ b) = (String.length a + String.length b)%nat.
Proof. induction a as [|x a IH]; simpl; [reflexivity | now rewrite IH]. Qed.

Lemma substring_prefix (p q : string) : substring 0 (String.length p) (p ++ q) = p.
Proof.
  induction p as [|x p IH]; simpl.
  - destruct q; reflexivity.
  - now rewrite IH.
Qed.

Lemma TrimPrefix_inv (lit s s' : string) :
  strings.TrimPrefix s lit = Some s' -> s = lit ++ s'.
Proof.
  revert s; induction lit as [|p lit IH]; intros s H.
  - destruct s; simpl in H; injection H as <-; reflexivity.
  - destruct s as [|a s]; simpl in H; [discriminate|].
    destruct (Ascii.eqb a p) eqn:E; [|discriminate].
    apply Ascii.eqb_eq in E. subst a. simpl. f_equal. now apply IH.
Qed.

(** ** The controller pattern *)

Lemma star_inv {A : Type} (cl : regexp.Class) (s : string) :
  forall (pos : nat) (k : nat -> string -> option A) (r : A),
    regexp.star cl pos s k = Some r ->
    exists taken rest,
      s = taken ++ rest /\ all (regexp.inClass cl) taken = true /\
      k (pos + String.length taken)%nat rest = Some r.
Proof.
  induction s as [|a s IH]; intros pos k r H; simpl in H.
  - exists EmptyString, EmptyString. rewrite Nat.add_0_r. auto.
  - destruct (regexp.inClass cl a) eqn:Ha.
    + destruct (regexp.star cl (S pos) s k) eqn:Hs.
      * injection H as <-.
        destruct (IH _ _ _ Hs) as (taken & rest & -> & Hall & Hk).
        exists (String a taken), rest. simpl. rewrite Ha, Hall.
        rewrite Nat.add_succ_r. auto.
      * exists EmptyString, (String a s). rewrite Nat.add_0_r. auto.
    + exists EmptyString, (String a s). rewrite Nat.add_0_r. auto.
Qed.

Lemma substring_app (n : nat) (p q : string) :
  n = String.length p -> substring 0 n (p ++ q) = p.
Proof. intros ->. apply substring_prefix. Qed.

Lemma matchAt_controllerPattern (ns : string) (matches : list string) :
  regexp.matchAt controllerPattern 0 ns = Some matches ->
  exists before N between suffix,
    ns = before ++ "nvme" ++ N ++ between ++ suffix /\ numeral N /\ numeral suffix /\
    matches = [ns; "nvme" ++ N].
Proof.
  unfold regexp.matchAt.
  cbv beta iota zeta delta [controllerPattern regexp.step Nat.eqb].
  intros H.
  apply star_inv in H. destruct H as (before & r1 & -> & _ & H).
  destruct (strings.TrimPrefix r1 "nvme") as [r2|] eqn:Hlit; [|discriminate].
  apply TrimPrefix_inv in Hlit. subst r1.
  destruct r2 as [|d r2]; [discriminate|].
  destruct (regexp.inClass regexp.Digit d) eqn:Hd; [|discriminate].
  apply star_inv in H. destruct H as (ds & r3 & -> & Hds & H).
  apply star_inv in H. destruct H as (between & r4 & -> & _ & H).
  destruct r4 as [|e r4]; [discriminate|].
  destruct (regexp.inClass regexp.Digit e) eqn:He; [|discriminate].
  apply star_inv in H. destruct H as (es & r5 & -> & Hes & H).
  destruct r5; [|discriminate].
  injection H as <-.
  exists before, (String d ds), between, (String e es).
  rewrite append_nil_r.
  split; [reflexivity|].
  split; [split; [discriminate | simpl in *; now rewrite Hd]|].
  split; [split; [discriminate | simpl in *; now rewrite He]|].
  cbn [map seq regexp.NumSubexp regexp.group Nat.add Nat.eqb].
  f_equal; [|f_equal].
  - rewrite <- (append_nil_r (before ++ _)) at 1.
    apply substring_app.
    rewrite !length_append. simpl. rewrite !length_append. simpl. lia.
  - apply (substring_app _ ("nvme" ++ String d ds) (between ++ String e es)).
    cbn [String.length String.append].
    destruct (String.length before); lia.
Qed.

Lemma search_controllerPattern (s : string) :
  forall pos, pos <> 0%nat -> regexp.search controllerPattern pos s = [].
Proof.
  induction s as [|a s IH]; intros pos Hpos; destruct pos as [|pos]; try congruence.
  - reflexivity.
  - change (regexp.search controllerPattern (S pos) (String a s))
      with (regexp.search controllerPattern (S (S pos)) s).
    apply IH. discriminate.
Qed.

Lemma FindStringSubmatch_controllerPattern (ns : string) :
  regexp.FindStringSubmatch controllerPattern ns =
  match regexp.matchAt controllerPattern 0 ns with
  | Some matches => matches
  | None => []
  end.
Proof.
  unfold regexp.FindStringSubmatch.
  destruct ns as [|a ns]; [reflexivity|].
  cbn [regexp.search].
  destruct (regexp.matchAt controllerPattern 0 (String a ns)); [reflexivity|].
  apply search_controllerPattern. discriminate.
Qed.

(** C8: [getControllerFromNs] gives nvme2 for /dev/nvme2n1 and nvme9 for
    nvme9n1, and ends the process on every text that holds no controller
    token followed by a closing numeric suffix. *)
Theorem getControllerFromNs_spec :
  getControllerFromNs "/dev/nvme2n1" = Ok "nvme2" /\
  getControllerFromNs "nvme9n1" = Ok "nvme9" /\
  forall ns, ~ hasControllerToken ns ->
             getControllerFromNs ns = Fatal (DeviceFileFormat ns).
Proof.
  split; [reflexivity|]. split; [reflexivity|].
  intros ns Hno. unfold getControllerFromNs.
  rewrite FindStringSubmatch_controllerPattern.
  destruct (regexp.matchAt controllerPattern 0 ns) as [matches|] eqn:Hm.
  - exfalso. apply Hno.
    destruct (matchAt_controllerPattern _ _ Hm) as (b & N & m & x & H1 & H2 & H3 & _).
    now exists b, N, m, x.
  - reflexivity.
Qed.

Lemma getControllerFromNs_witness :
  getControllerFromNs "sda" = Fatal (DeviceFileFormat "sda").
Proof.
  apply (proj2 (proj2 getControllerFromNs_spec)).
  intros (b & N & m & x & H & _).
  apply (f_equal String.length) in H.
  rewrite !length_append in H. simpl in H. lia.
Defined.

(** ** makeMetric *)

Lemma makeMetric_reading (c : nvmeCollector) (description : Desc) (valType : ValueType)
      (result : gjson.text) (substring label : string) :
  makeMetric c description valType result substring label =
  MustNewConstMetric description valType
                     (reading (temperatureScale c) result substring) [label].
Proof.
  unfold makeMetric, reading, fromKelvin.
  destruct (strings.Contains substring "temperature"); [|reflexivity].
  destruct (String.eqb (temperatureScale c) "celsius") eqn:Hc; [|reflexivity].
  apply String.eqb_eq in Hc. rewrite Hc. reflexivity.
Qed.

Lemma send_makeMetric (c : nvmeCollector) (description : Desc) (valType : ValueType)
      (result : gjson.text) (substring path : string) (t : trace) :
  List.length (variableLabels description) = 1%nat ->
  send (makeMetric c description valType result substring path) t =
  (Ok tt, sent t [sample (temperatureScale c) result path (description, valType, substring)]).
Proof.
  intros Hl. rewrite makeMetric_reading. unfold MustNewConstMetric.
  rewrite Hl. reflexivity.
Qed.

Lemma sent_sent (t : trace) (a b : list Metric) : sent (sent t a) b = sent t (a ++ b)%list.
Proof. unfold sent. simpl. now rewrite <- app_assoc. Qed.

Lemma sent_nil (t : trace) : sent t [] = t.
Proof. destruct t. unfold sent. simpl. now rewrite app_nil_r. Qed.

(** ** The metrics of one smart-log *)

Lemma index_sensorDescription (scale : string) (i : nat) :
  (1 <= i <= maxTempSensors)%nat ->
  index (nvmeTemperatureSensors (newNvmeCollector scale)) (i - 1) =
  Ok (sensorDescription scale i).
Proof.
  unfold maxTempSensors. intros Hi.
  do 9 (destruct i as [|i]; [try lia; reflexivity|]). lia.
Qed.

(** One [send] of a chain, the metric being one [makeMetric] builds. *)
Ltac send_step :=
  first [progress (unfold andThen at 1) | idtac];
  rewrite send_makeMetric by reflexivity; cbv beta iota.

Lemma rangeSensors_sent (scale : string) (result : gjson.text) (path : string) :
  forall (left i : nat) (t : trace),
    (1 <= i)%nat -> (i + left = S maxTempSensors)%nat ->
    rangeSensors (newNvmeCollector scale) result path left i t =
    (Ok tt, sent t (map (sensorSample scale result path)
                        (seq i (sensorsFound result left i)))).
Proof.
  induction left as [|left IH]; intros i t Hi Hsum.
  - simpl. now rewrite sent_nil.
  - cbn [rangeSensors sensorsFound].
    destruct (gjson.Result.Exists (gjson.Get result (temperatureSensor i))).
    + cbn [negb].
      rewrite index_sensorDescription by (unfold maxTempSensors in *; lia).
      cbn [bind]. send_step.
      rewrite IH by lia. rewrite sent_sent. reflexivity.
    + cbn [negb seq map]. unfold ret. now rewrite sent_nil.
Qed.

Lemma collectSmartLog_sent (scale path : string) (j : gjson.json) (t : trace) :
  collectSmartLog (newNvmeCollector scale) (gjson.Document j) path t =
  (Ok tt,
   sent t (criticalWarningSamples scale (gjson.Document j) path
           ++ map (sample scale (gjson.Document j) path)
                  (healthFields (newNvmeCollector scale)))%list).
Proof.
  unfold collectSmartLog, criticalWarningSamples.
  cbn [gjson.Valid negb].
  destruct (gjson.Result.Type_ (gjson.Get (gjson.Document j) "critical_warning")) eqn:Hty.
  all: try (repeat send_step; rewrite !sent_sent; reflexivity).
  unfold andThen at 1.
  repeat send_step.
  unfold andThen at 1.
  rewrite rangeSensors_sent by (unfold maxTempSensors; lia).
  cbv beta iota.
  repeat send_step.
  rewrite !sent_sent.
  cbn [map criticalWarningFields healthFields].
  rewrite <- !app_assoc. reflexivity.
Qed.



Lemma sensorsFound_le (result : gjson.text) :
  forall left i, (sensorsFound result left i <= left)%nat.
Proof.
  induction left as [|left IH]; intros i; cbn [sensorsFound]; [lia|].
  destruct (gjson.Result.Exists _); [|lia]. specialize (IH (S i)). lia.
Qed.





(** ** Temperature *)

Lemma Contains_temperatureSensor (i : nat) :
  strings.Contains (temperatureSensor i) "temperature" = true.
Proof. reflexivity. Qed.

(** C7, amended: a field whose name contains "temperature" is converted
    from Kelvin by the scale, in float64: minus 273 for celsius,
    (K - 273.15) * 9 / 5 + 32 for fahrenheit, unchanged otherwise; the
    temperature field and every sensor field are such fields; 296 gives
    23 for celsius, 296 for kelvin and 73.13000000000004 for fahrenheit. *)
Theorem temperature_conversion :
  (forall c description valType result substring label,
      strings.Contains substring "temperature" = true ->
      let kelvin := gjson.Result.Float (gjson.Get result substring) in
      let sends value :=
        makeMetric c description valType result substring label
        = MustNewConstMetric description valType value [label] in
      (temperatureScale c = "celsius" -> sends (kelvin - 273)%float) /\
      (temperatureScale c = "fahrenheit" ->
       sends ((kelvin - 273.15) * 9 / 5 + 32)%float) /\
      (temperatureScale c <> "celsius" -> temperatureScale c <> "fahrenheit" ->
       sends kelvin)) /\
  strings.Contains "temperature" "temperature" = true /\
  (forall i, strings.Contains (temperatureSensor i) "temperature" = true) /\
  (forall description valType label,
      makeMetric (newNvmeCollector "celsius") description valType
                 kelvin296 "temperature" label
      = MustNewConstMetric description valType 23%float [label] /\
      makeMetric (newNvmeCollector "fahrenheit") description valType
                 kelvin296 "temperature" label
      = MustNewConstMetric description valType 73.13000000000004%float [label] /\
      makeMetric (newNvmeCollector "kelvin") description valType
                 kelvin296 "temperature" label
      = MustNewConstMetric description valType 296%float [label]).
Proof.
  split; [|split; [reflexivity|split; [exact Contains_temperatureSensor|]]].
  - intros c description valType result substring label Hc kelvin sends.
    unfold sends, kelvin. rewrite makeMetric_reading. unfold reading, fromKelvin.
    rewrite Hc. repeat split.
    + intros ->. reflexivity.
    + intros ->. reflexivity.
    + intros H1 H2. apply String.eqb_neq in H1, H2. now rewrite H1, H2.
  - intros description valType label. repeat split.
Qed.

Lemma temperature_conversion_witness :
  makeMetric (newNvmeCollector "celsius")
             (sensorDescription "celsius" 1) GaugeValue
             (gjson.Document newStyleSmartLog) (temperatureSensor 1) "/dev/nvme0n1"
  = MustNewConstMetric (sensorDescription "celsius" 1) GaugeValue
                       (float64 302 - 273)%float ["/dev/nvme0n1"].
Proof.
  apply (proj1 temperature_conversion
               (newNvmeCollector "celsius") (sensorDescription "celsius" 1) GaugeValue
               (gjson.Document newStyleSmartLog) (temperatureSensor 1) "/dev/nvme0n1").
  - reflexivity.
  - reflexivity.
Defined.

(** At 296 Kelvin the fahrenheit value sent is not the float64 73.13. *)
Lemma fahrenheit_296_is_not_73_13 :
  let c := newNvmeCollector "fahrenheit" in
  makeMetric c (nvmeTemperature c) GaugeValue kelvin296 "temperature" "/dev/nvme0n1"
  <> Ok (ConstMetric (nvmeTemperature c) GaugeValue 73.13%float ["/dev/nvme0n1"]).
Proof.
  intros c H.
  apply (f_equal (fun o => match o with
                           | Ok m => PrimFloat.eqb (value m) 73.13%float
                           | Fatal _ => false
                           end)) in H.
  vm_compute in H. discriminate.
Qed.

(** ** Absent fields and invalid text *)





(** ** The thermal total times *)

Lemma filter_sensorSamples_nil (names : list string) (scale : string)
      (result : gjson.text) (path : string) (l : list nat) :
  (forall i, named names (sensorSample scale result path i) = false) ->
  filter (named names) (map (sensorSample scale result path) l) = [].
Proof.
  intros Hno. induction l as [|i l IH]; [reflexivity|].
  cbn [map filter]. now rewrite Hno.
Qed.

(** C4: the slot nvme_thm_temp2_trans_time carries thm_temp1_total_time,
    but the slot nvme_thm_temp1_trans_time carries the field
    thm_temp3_total_time, not thm_temp2_total_time: for the new style
    smart-log, whose thm_temp2_total_time is 22, it is sent as 0. *)
Theorem thermal_total_time_slots :
  (forall scale path j t,
      let c := newNvmeCollector scale in
      let counter description field :=
        ConstMetric description CounterValue
                    (gjson.Result.Float (gjson.Get (gjson.Document j) field)) [path] in
      exists metrics,
        collectSmartLog c (gjson.Document j) path t = (Ok tt, sent t metrics) /\
        filter (named ["nvme_thm_temp1_trans_time"]) metrics
        = [counter (nvmeThmTemp1TotalTime c) "thm_temp3_total_time"] /\
        filter (named ["nvme_thm_temp2_trans_time"]) metrics
        = [counter (nvmeThmTemp2TotalTime c) "thm_temp1_total_time"]) /\
  gjson.Result.Float (gjson.Get (gjson.Document newStyleSmartLog) "thm_temp2_total_time")
  = 22%float /\
  (let c := newNvmeCollector "celsius" in
   exists metrics,
     collectSmartLog c (gjson.Document newStyleSmartLog) "/dev/nvme0n1" emptyTrace
     = (Ok tt, sent emptyTrace metrics) /\
     filter (named ["nvme_thm_temp1_trans_time"]) metrics
     = [ConstMetric (nvmeThmTemp1TotalTime c) CounterValue 0%float ["/dev/nvme0n1"]] /\
     filter (named ["nvme_thm_temp2_trans_time"]) metrics
     = [ConstMetric (nvmeThmTemp2TotalTime c) CounterValue 11%float ["/dev/nvme0n1"]]).
Proof.
  assert (General : forall scale path j t,
      let c := newNvmeCollector scale in
      let counter description field :=
        ConstMetric description CounterValue
                    (gjson.Result.Float (gjson.Get (gjson.Document j) field)) [path] in
      exists metrics,
        collectSmartLog c (gjson.Document j) path t = (Ok tt, sent t metrics) /\
        filter (named ["nvme_thm_temp1_trans_time"]) metrics
        = [counter (nvmeThmTemp1TotalTime c) "thm_temp3_total_time"] /\
        filter (named ["nvme_thm_temp2_trans_time"]) metrics
        = [counter (nvmeThmTemp2TotalTime c) "thm_temp1_total_time"]).
  { intros scale path j t c counter.
    eexists. split; [apply collectSmartLog_sent|].
    unfold criticalWarningSamples.
    destruct (gjson.Result.Type_ (gjson.Get (gjson.Document j) "critical_warning"));
      try (split; reflexivity).
    rewrite !filter_app.
    rewrite !filter_sensorSamples_nil by (intros i; reflexivity).
    split; reflexivity. }
  split; [exact General|]. split; [reflexivity|].
  exact (General "celsius" "/dev/nvme0n1" newStyleSmartLog emptyTrace).
Qed.

(** ** Capacity lookups *)




(** ** gjson paths *)

Lemma find_field (key : string) (members : list (string * gjson.json)) :
  gjson.find [key] (gjson.JObject members) = field key members.
Proof.
  cbn [gjson.find].
  induction members as [|[k v] members IH]; [reflexivity|].
  cbn [field]. destruct (String.eqb k key); [reflexivity | exact IH].
Qed.

Lemma find_member (key : string) (more : list string)
      (members : list (string * gjson.json)) (v r : gjson.json) :
  field key members = Some v -> gjson.find more v = Some r ->
  gjson.find (key :: more) (gjson.JObject members) = Some r.
Proof.
  intros Hf Hr. cbn [gjson.find].
  induction members as [|[k x] members IH]; [discriminate|].
  cbn [field] in Hf. destruct (String.eqb k key).
  - injection Hf as ->. now rewrite Hr.
  - apply IH. exact Hf.
Qed.

Lemma find_no_member (key : string) (more : list string)
      (members : list (string * gjson.json)) :
  field key members = None ->
  gjson.find (key :: more) (gjson.JObject members) = None.
Proof.
  intros Hf. cbn [gjson.find].
  induction members as [|[k x] members IH]; [reflexivity|].
  cbn [field] in Hf. destruct (String.eqb k key); [discriminate|].
  apply IH. exact Hf.
Qed.

Lemma find_each (part : string) (more : list string) (elems : list gjson.json) :
  gjson.find ("#" :: part :: more) (gjson.JArray elems) =
  Some (gjson.JArray (gjson.keep (map (gjson.find (part :: more)) elems))).
Proof. reflexivity. Qed.

(** ** Loops that append *)

Lemma bind_bind {A B C} (m : outcome A) (f : A -> outcome B) (g : B -> outcome C) :
  bind (bind m f) g = bind m (fun a => bind (f a) g).
Proof. destruct m; reflexivity. Qed.

Lemma bind_Ok {A} (m : outcome A) : bind m (fun a => Ok a) = m.
Proof. destruct m; reflexivity. Qed.

Lemma forRange_appends {A X} (f : list A -> X -> outcome (list A)) :
  appends f ->
  forall xs acc, forRange f xs acc = (ys <- forRange f xs [] ;; Ok (acc ++ ys)%list).
Proof.
  intros Hf. induction xs as [|x xs IH]; intros acc.
  - cbn [forRange bind]. now rewrite app_nil_r.
  - cbn [forRange]. rewrite (Hf acc x).
    destruct (f [] x) as [ys|e] eqn:Hx; cbn [bind]; [|reflexivity].
    rewrite (IH (acc ++ ys)%list), (IH ys). rewrite bind_bind.
    destruct (forRange f xs []) as [zs|e]; cbn [bind]; [|reflexivity].
    now rewrite app_assoc.
Qed.

Lemma appends_forRange {A X Y} (f : list A -> X -> outcome (list A)) (items : Y -> list X) :
  appends f -> appends (fun acc y => forRange f (items y) acc).
Proof. intros Hf acc y. apply forRange_appends. exact Hf. Qed.

Lemma appends_appendSubsystemNamespace : appends appendSubsystemNamespace.
Proof.
  intros acc namespace. unfold appendSubsystemNamespace.
  destruct (getControllerFromNs _); reflexivity.
Qed.

Lemma appends_appendControllerNamespace (controllerID : string) :
  appends (appendControllerNamespace controllerID).
Proof. intros acc namespace. reflexivity. Qed.

Lemma appends_appendController : appends appendController.
Proof.
  intros acc controller. unfold appendController.
  destruct (String.eqb _ _); [reflexivity|].
  apply forRange_appends. apply appends_appendControllerNamespace.
Qed.

Lemma appends_appendDevicePath : appends appendDevicePath.
Proof.
  intros acc devicePath. unfold appendDevicePath.
  destruct (getControllerFromNs _); reflexivity.
Qed.

Lemma rangeSubsystemNamespaces_appends (devices : gjson.Result.t) (acc : list nvmeNamespace) :
  rangeSubsystemNamespaces devices acc =
  (ys <- rangeSubsystemNamespaces devices [] ;; Ok (acc ++ ys)%list).
Proof.
  unfold rangeSubsystemNamespaces. apply forRange_appends.
  apply (appends_forRange _ gjson.Result.Array).
  apply (appends_forRange _ gjson.Result.Array).
  exact appends_appendSubsystemNamespace.
Qed.

Lemma rangeControllerNamespaces_appends (devices : gjson.Result.t) (acc : list nvmeNamespace) :
  rangeControllerNamespaces devices acc =
  (ys <- rangeControllerNamespaces devices [] ;; Ok (acc ++ ys)%list).
Proof.
  unfold rangeControllerNamespaces. apply forRange_appends.
  apply (appends_forRange _ gjson.Result.Array).
  apply (appends_forRange _ gjson.Result.Array).
  exact appends_appendController.
Qed.

Lemma rangeDevicePaths_appends (devices : gjson.Result.t) (acc : list nvmeNamespace) :
  rangeDevicePaths devices acc =
  (ys <- rangeDevicePaths devices [] ;; Ok (acc ++ ys)%list).
Proof.
  unfold rangeDevicePaths. apply forRange_appends. exact appends_appendDevicePath.
Qed.

Lemma rangeDevicePaths_strings (paths : list string) (acc : list nvmeNamespace) :
  forRange appendDevicePath (map Some (map gjson.JString paths)) acc =
  (ys <- traverse legacyDevice paths ;; Ok (acc ++ ys)%list).
Proof.
  revert acc. induction paths as [|path paths IH]; intros acc.
  - cbn. now rewrite app_nil_r.
  - cbn [map forRange traverse]. unfold appendDevicePath at 1, legacyDevice at 1.
    cbn [gjson.Result.String].
    destruct (getControllerFromNs path) as [controller|e]; cbn [bind]; [|reflexivity].
    rewrite IH. destruct (traverse legacyDevice paths) as [ys|e]; cbn [bind]; [|reflexivity].
    now rewrite <- app_assoc.
Qed.

(** ** The flat legacy shape *)

Lemma keep_no_subsystems (more : list string) (paths : list string)
      (entries : list gjson.json) :
  Forall2 legacyEntry paths entries ->
  gjson.keep (map (gjson.find ("Subsystems" :: more)) entries) = [].
Proof.
  induction 1 as [|path entry paths entries (members & -> & _ & Hnone) _ IH];
    [reflexivity|].
  cbn [map gjson.keep flat_map]. rewrite (find_no_member _ _ _ Hnone). exact IH.
Qed.

Lemma keep_device_paths (paths : list string) (entries : list gjson.json) :
  Forall2 legacyEntry paths entries ->
  gjson.keep (map (gjson.find ["DevicePath"]) entries) = map gjson.JString paths.
Proof.
  induction 1 as [|path entry paths entries (members & -> & Hpath & _) _ IH];
    [reflexivity|].
  cbn [map gjson.keep flat_map]. rewrite find_field, Hpath. cbn [app].
  f_equal. exact IH.
Qed.

Lemma traverse_legacyDevice (paths controllers : list string) :
  Forall2 (fun path controller => getControllerFromNs path = Ok controller)
          paths controllers ->
  traverse legacyDevice paths =
  Ok (map (fun pc => {| devicePath := fst pc;
                        nsController := snd pc;
                        nsPhysicalSize := -1;
                        nsTotalCapacity := 0;
                        nsMaximumLBA := -1;
                        nsUsedBytes := -1;
                        nsSectorSize := -1 |})
          (combine paths controllers)).
Proof.
  induction 1 as [|path controller paths controllers Hc _ IH]; [reflexivity|].
  cbn [traverse combine map]. unfold legacyDevice at 1. rewrite Hc. cbn [bind].
  rewrite IH. reflexivity.
Qed.

(** C9: an inventory of the flat legacy shape gives one record for each
    entry, in order: the DevicePath as it is, the controller inferred
    from it by [getControllerFromNs] (whose failure ends the run), and
    -1 for the four sizes. *)
Theorem flat_legacy_records
        (top : list (string * gjson.json)) (entries : list gjson.json)
        (paths : list string) :
  field "Devices" top = Some (gjson.JArray entries) ->
  Forall2 legacyEntry paths entries ->
  paths <> [] ->
  getDeviceList (gjson.Document (gjson.JObject top)) = traverse legacyDevice paths /\
  forall controllers,
    Forall2 (fun path controller => getControllerFromNs path = Ok controller)
            paths controllers ->
    getDeviceList (gjson.Document (gjson.JObject top)) =
    Ok (map (fun pc => {| devicePath := fst pc;
                          nsController := snd pc;
                          nsPhysicalSize := -1;
                          nsTotalCapacity := 0;
                          nsMaximumLBA := -1;
                          nsUsedBytes := -1;
                          nsSectorSize := -1 |})
            (combine paths controllers)).
Proof.
  intros Hdevices Hentries Hsome.
  assert (Hlist : getDeviceList (gjson.Document (gjson.JObject top))
                  = traverse legacyDevice paths).
  { unfold getDeviceList. cbn [gjson.Valid negb].
    change (gjson.Get (gjson.Document (gjson.JObject top))
                      "Devices.#.Subsystems.#.Namespaces")
      with (gjson.find ["Devices"; "#"; "Subsystems"; "#"; "Namespaces"]
                       (gjson.JObject top)).
    change (gjson.Get (gjson.Document (gjson.JObject top))
                      "Devices.#.Subsystems.#.Controllers")
      with (gjson.find ["Devices"; "#"; "Subsystems"; "#"; "Controllers"]
                       (gjson.JObject top)).
    change (gjson.Get (gjson.Document (gjson.JObject top)) "Devices.#.DevicePath")
      with (gjson.find ["Devices"; "#"; "DevicePath"] (gjson.JObject top)).
    rewrite !(find_member _ _ _ _ _ Hdevices (find_each _ _ _)).
    rewrite !(keep_no_subsystems _ _ _ Hentries), (keep_device_paths _ _ Hentries).
    cbn [gjson.Result.Array map List.length Nat.ltb Nat.leb bind].
    rewrite !length_map.
    destruct paths as [|path paths]; [congruence|].
    cbn [List.length Nat.ltb Nat.leb].
    unfold rangeDevicePaths. cbn [gjson.Result.Array].
    rewrite rangeDevicePaths_strings. rewrite bind_bind.
    cbn [bind app]. apply bind_Ok. }
  split; [exact Hlist|].
  intros controllers Hc. rewrite Hlist. apply traverse_legacyDevice. exact Hc.
Qed.

Lemma flat_legacy_records_witness :
  getDeviceList (gjson.Document oldDevicesJson) =
  Ok [ {| devicePath := "/dev/nvme0n1";
          nsController := "nvme0";
          nsPhysicalSize := -1;
          nsTotalCapacity := 0;
          nsMaximumLBA := -1;
          nsUsedBytes := -1;
          nsSectorSize := -1 |} ].
Proof.
  refine (proj2 (flat_legacy_records _ _ ["/dev/nvme0n1"] _ _ _) ["nvme0"] _).
  - reflexivity.
  - constructor; [|constructor].
    eexists. split; [reflexivity|]. split; reflexivity.
  - discriminate.
  - constructor; [reflexivity|constructor].
Defined.

(** ** The order of the branches *)

Lemma rangeSubsystemNamespaces_nothing (devices : gjson.Result.t)
      (acc : list nvmeNamespace) :
  gjson.Result.Array devices = [] -> rangeSubsystemNamespaces devices acc = Ok acc.
Proof. intros H. unfold rangeSubsystemNamespaces. now rewrite H. Qed.

Lemma getDeviceList_branches (j : gjson.json) :
  getDeviceList (gjson.Document j) =
  (bare <- fromNamespaces j ;;
   if controllersMatch j then
     rangeControllerNamespaces
       (gjson.Get (gjson.Document j) "Devices.#.Subsystems.#.Controllers") bare
   else if devicePathsMatch j then
     rangeDevicePaths (gjson.Get (gjson.Document j) "Devices.#.DevicePath") bare
   else Fatal NoDevicesFound).
Proof.
  unfold fromNamespaces, controllersMatch, devicePathsMatch, getDeviceList.
  cbn [gjson.Valid negb].
  set (namespaces := gjson.Get (gjson.Document j) "Devices.#.Subsystems.#.Namespaces").
  assert (Hfirst :
            (if (0 <? List.length (gjson.Result.Array namespaces))%nat
             then rangeSubsystemNamespaces namespaces []
             else Ok []) = rangeSubsystemNamespaces namespaces []).
  { destruct (gjson.Result.Array namespaces) eqn:Hn; [|reflexivity].
    cbn [List.length Nat.ltb Nat.leb]. symmetry.
    now apply rangeSubsystemNamespaces_nothing. }
  rewrite Hfirst.
  destruct (rangeSubsystemNamespaces namespaces []) as [bare|e]; [|reflexivity].
  cbn [bind]. rewrite !bind_Ok. reflexivity.
Qed.

(** C1, amended: the branches are tried in a fixed order, and the
    records of the namespace-under-subsystem branch are kept whatever
    comes next.  When the controller query matches, the records of the
    controller branch follow them and the flat legacy branch is not
    tried; when it does not match and the DevicePath query does, the
    flat legacy records follow them; when neither matches the run ends
    with "No NVMe Devices found". *)
Theorem branches_in_order (j : gjson.json) :
  (forall e, fromNamespaces j = Fatal e -> getDeviceList (gjson.Document j) = Fatal e) /\
  (forall bare,
      fromNamespaces j = Ok bare ->
      (controllersMatch j = true ->
       getDeviceList (gjson.Document j)
       = (attached <- fromControllers j ;; Ok (bare ++ attached)%list)) /\
      (controllersMatch j = false -> devicePathsMatch j = true ->
       getDeviceList (gjson.Document j)
       = (legacy <- fromDevicePaths j ;; Ok (bare ++ legacy)%list)) /\
      (controllersMatch j = false -> devicePathsMatch j = false ->
       getDeviceList (gjson.Document j) = Fatal NoDevicesFound)).
Proof.
  rewrite getDeviceList_branches. split.
  - intros e ->. reflexivity.
  - intros bare ->. cbn [bind]. repeat split.
    + intros ->. apply rangeControllerNamespaces_appends.
    + intros -> ->. apply rangeDevicePaths_appends.
    + intros -> ->. reflexivity.
Qed.

Lemma branches_in_order_witness :
  getDeviceList (gjson.Document mixedDevicesJson) =
  Ok [ {| devicePath := "/dev/nvme9n1"; nsController := "nvme9";
          nsPhysicalSize := 137438953472; nsTotalCapacity := 0;
          nsMaximumLBA := 268435456; nsUsedBytes := 137438953472;
          nsSectorSize := 512 |};
       {| devicePath := "/dev/nvme3n1"; nsController := "nvme3";
          nsPhysicalSize := 960197124096; nsTotalCapacity := 0;
          nsMaximumLBA := 1875385008; nsUsedBytes := 7486193664;
          nsSectorSize := 512 |} ].
Proof.
  refine (eq_trans
            (proj1 (proj2 (branches_in_order mixedDevicesJson)
                          [ {| devicePath := "/dev/nvme9n1"; nsController := "nvme9";
                               nsPhysicalSize := 137438953472; nsTotalCapacity := 0;
                               nsMaximumLBA := 268435456; nsUsedBytes := 137438953472;
                               nsSectorSize := 512 |} ] _) _) _).
  - vm_compute. reflexivity.
  - vm_compute. reflexivity.
  - vm_compute. reflexivity.
Defined.

(** In the inventory of [TestGetDeviceListV4] the first branch yields
    the record of nvme9n1, and the second branch still adds the record
    of nvme3n1. *)
Lemma second_branch_adds_to_first :
  fromNamespaces mixedDevicesJson =
  Ok [ {| devicePath := "/dev/nvme9n1"; nsController := "nvme9";
          nsPhysicalSize := 137438953472; nsTotalCapacity := 0;
          nsMaximumLBA := 268435456; nsUsedBytes := 137438953472;
          nsSectorSize := 512 |} ] /\
  getDeviceList (gjson.Document mixedDevicesJson) =
  Ok [ {| devicePath := "/dev/nvme9n1"; nsController := "nvme9";
          nsPhysicalSize := 137438953472; nsTotalCapacity := 0;
          nsMaximumLBA := 268435456; nsUsedBytes := 137438953472;
          nsSectorSize := 512 |};
       {| devicePath := "/dev/nvme3n1"; nsController := "nvme3";
          nsPhysicalSize := 960197124096; nsTotalCapacity := 0;
          nsMaximumLBA := 1875385008; nsUsedBytes := 7486193664;
          nsSectorSize := 512 |} ] /\
  ~ branchesExclusive.
Proof.
  split; [vm_compute; reflexivity|]. split; [vm_compute; reflexivity|].
  intros [H _].
  specialize (H mixedDevicesJson _ eq_refl).
  assert (Hne : [ {| devicePath := "/dev/nvme9n1"; nsController := "nvme9";
                     nsPhysicalSize := 137438953472; nsTotalCapacity := 0;
                     nsMaximumLBA := 268435456; nsUsedBytes := 137438953472;
                     nsSectorSize := 512 |} ] <> []) by discriminate.
  specialize (H Hne). vm_compute in H. discriminate.
Qed.

(** ** Mixed inventories *)

Lemma Get_member (key : string) (members : list (string * gjson.json)) :
  strings.Split "." key = [key] ->
  gjson.Get (gjson.reread (Some (gjson.JObject members))) key = field key members.
Proof.
  intros Hkey. cbn [gjson.reread gjson.Get]. rewrite Hkey. apply find_field.
Qed.

Lemma namespaceDevice_entry (fields : namespaceFields)
      (members : list (string * gjson.json)) (controller : string) :
  namespaceEntry fields (gjson.JObject members) ->
  gjson.Result.String (gjson.Get (gjson.reread (Some (gjson.JObject members))) "NameSpace")
  = NameSpace fields /\
  namespaceDevice (Some (gjson.JObject members)) (NameSpace fields) controller
  = namespaceRecord fields controller.
Proof.
  intros (members' & Heq & Hn & Hu & Hl & Hp & Hs). injection Heq as <-.
  unfold namespaceDevice, namespaceRecord.
  rewrite !Get_member by reflexivity. rewrite Hn, Hu, Hl, Hp, Hs. split; reflexivity.
Qed.

Lemma appendSubsystemNamespace_entry (fields : namespaceFields) (namespace : gjson.json)
      (acc : list nvmeNamespace) :
  namespaceEntry fields namespace ->
  appendSubsystemNamespace acc (Some namespace) =
  (controller <- getControllerFromNs (NameSpace fields) ;;
   Ok (acc ++ [namespaceRecord fields controller])%list).
Proof.
  intros Hentry. destruct Hentry as (members & -> & Hrest).
  assert (Hentry : namespaceEntry fields (gjson.JObject members))
    by (exists members; split; [reflexivity | exact Hrest]).
  unfold appendSubsystemNamespace.
  rewrite (proj1 (namespaceDevice_entry fields members EmptyString Hentry)).
  destruct (getControllerFromNs (NameSpace fields)) as [controller|e]; [|reflexivity].
  cbn [bind]. now rewrite (proj2 (namespaceDevice_entry fields members controller Hentry)).
Qed.

Lemma appendControllerNamespace_entry (fields : namespaceFields) (namespace : gjson.json)
      (controller : string) (acc : list nvmeNamespace) :
  namespaceEntry fields namespace ->
  appendControllerNamespace controller acc (Some namespace) =
  Ok (acc ++ [namespaceRecord fields controller])%list.
Proof.
  intros Hentry. destruct Hentry as (members & -> & Hrest).
  assert (Hentry : namespaceEntry fields (gjson.JObject members))
    by (exists members; split; [reflexivity | exact Hrest]).
  unfold appendControllerNamespace.
  rewrite (proj1 (namespaceDevice_entry fields members EmptyString Hentry)).
  now rewrite (proj2 (namespaceDevice_entry fields members controller Hentry)).
Qed.



Lemma host_queries (subsystems : list gjson.json) (j : gjson.json) (key : string) :
  hostOf subsystems j ->
  gjson.find ["Devices"; "#"; "Subsystems"; "#"; key] j =
  Some (gjson.JArray [gjson.JArray (gjson.keep (map (gjson.find [key]) subsystems))]).
Proof.
  intros (top & host & -> & Hdevices & Hsubsystems).
  rewrite (find_member _ _ _ _ _ Hdevices (find_each _ _ _)).
  cbn [map gjson.keep flat_map].
  rewrite (find_member _ _ _ _ _ Hsubsystems (find_each _ _ _)).
  reflexivity.
Qed.






Lemma hostInventory_hostOf (subsystems : list gjson.json) :
  hostOf subsystems (hostInventory subsystems).
Proof. eexists _, _. split; [reflexivity|]. split; reflexivity. Qed.



(** * Further properties *)

(** ** More about the controller pattern *)

Lemma all_append (p : ascii -> bool) (a b : string) :
  all p (a ++ b) = all p a && all p b.
Proof.
  induction a as [|x a IH]; [reflexivity|].
  simpl. rewrite IH. now rewrite andb_assoc.
Qed.

Lemma digit_not_line_feed (a : ascii) :
  isDigit a = true -> regexp.inClass regexp.AnyCharNotNL a = true.
Proof.
  intros Hd. unfold regexp.inClass.
  destruct (Ascii.eqb a "010") eqn:E; [|reflexivity].
  apply Ascii.eqb_eq in E. subst a. discriminate.
Qed.


Lemma all_weaken (p q : ascii -> bool) (s : string) :
  (forall a, p a = true -> q a = true) -> all p s = true -> all q s = true.
Proof.
  intros Hpq. induction s as [|a s IH]; [reflexivity|].
  simpl. intros H. apply andb_prop in H. destruct H as [Ha Hs].
  now rewrite (Hpq a Ha), (IH Hs).
Qed.

(** A greedy repetition that can stop somewhere finds a match. *)
Lemma star_finds {A : Type} (cl : regexp.Class) (taken rest : string) :
  forall (pos : nat) (k : nat -> string -> option A),
    all (regexp.inClass cl) taken = true ->
    k (pos + String.length taken)%nat rest <> None ->
    regexp.star cl pos (taken ++ rest) k <> None.
Proof.
  induction taken as [|a taken IH]; intros pos k Hall Hk.
  - rewrite Nat.add_0_r in Hk. cbn [String.append].
    destruct rest as [|b rest]; cbn [regexp.star]; [exact Hk|].
    destruct (regexp.inClass cl b); [|exact Hk].
    destruct (regexp.star cl (S pos) rest k); [discriminate | exact Hk].
  - simpl in Hall. apply andb_prop in Hall. destruct Hall as [Ha Hall].
    cbn [String.append regexp.star]. rewrite Ha.
    assert (Hdeep : regexp.star cl (S pos) (taken ++ rest) k <> None).
    { apply IH; [exact Hall|].
      cbn [String.length] in Hk. now rewrite Nat.add_succ_r in Hk. }
    destruct (regexp.star cl (S pos) (taken ++ rest) k); [discriminate | contradiction].
Qed.



Lemma matchAt_controllerPattern_lines (ns : string) (matches : list string) :
  regexp.matchAt controllerPattern 0 ns = Some matches ->
  exists before N between suffix,
    ns = before ++ "nvme" ++ N ++ between ++ suffix /\ numeral N /\ numeral suffix /\
    noLineFeed before /\ noLineFeed between /\
    matches = [ns; "nvme" ++ N].
Proof.
  unfold regexp.matchAt.
  cbv beta iota zeta delta [controllerPattern regexp.step Nat.eqb].
  intros H.
  apply star_inv in H. destruct H as (before & r1 & -> & Hbefore & H).
  destruct (strings.TrimPrefix r1 "nvme") as [r2|] eqn:Hlit; [|discriminate].
  apply TrimPrefix_inv in Hlit. subst r1.
  destruct r2 as [|d r2]; [discriminate|].
  destruct (regexp.inClass regexp.Digit d) eqn:Hd; [|discriminate].
  apply star_inv in H. destruct H as (ds & r3 & -> & Hds & H).
  apply star_inv in H. destruct H as (between & r4 & -> & Hbetween & H).
  destruct r4 as [|e r4]; [discriminate|].
  destruct (regexp.inClass regexp.Digit e) eqn:He; [|discriminate].
  apply star_inv in H. destruct H as (es & r5 & -> & Hes & H).
  destruct r5; [|discriminate].
  injection H as <-.
  exists before, (String d ds), between, (String e es).
  rewrite append_nil_r.
  split; [reflexivity|].
  split; [split; [discriminate | simpl in *; now rewrite Hd]|].
  split; [split; [discriminate | simpl in *; now rewrite He]|].
  split; [exact Hbefore|]. split; [exact Hbetween|].
  cbn [map seq regexp.NumSubexp regexp.group Nat.add Nat.eqb].
  f_equal; [|f_equal].
  - rewrite <- (append_nil_r (before ++ _)) at 1.
    apply substring_app.
    rewrite !length_append. simpl. rewrite !length_append. simpl. lia.
  - apply (substring_app _ ("nvme" ++ String d ds) (between ++ String e es)).
    cbn [String.length String.append].
    destruct (String.length before); lia.
Qed.

Lemma getControllerFromNs_matchAt (ns : string) :
  getControllerFromNs ns =
  match regexp.matchAt controllerPattern 0 ns with
  | Some matches =>
      if (1 <? List.length matches)%nat then Ok (nth 1 matches EmptyString)
      else Fatal (DeviceFileFormat ns)
  | None => Fatal (DeviceFileFormat ns)
  end.
Proof.
  unfold getControllerFromNs. rewrite FindStringSubmatch_controllerPattern.
  destruct (regexp.matchAt controllerPattern 0 ns); reflexivity.
Qed.

Lemma getControllerFromNs_Ok (ns controller : string) :
  getControllerFromNs ns = Ok controller ->
  exists before N between suffix,
    ns = before ++ "nvme" ++ N ++ between ++ suffix /\ numeral N /\ numeral suffix /\
    noLineFeed before /\ noLineFeed between /\ controller = "nvme" ++ N.
Proof.
  rewrite getControllerFromNs_matchAt.
  destruct (regexp.matchAt controllerPattern 0 ns) as [matches|] eqn:Hm; [|discriminate].
  destruct (matchAt_controllerPattern_lines _ _ Hm)
    as (b & N & m & x & H1 & H2 & H3 & H4 & H5 & ->).
  cbn. intros H. injection H as <-. now exists b, N, m, x.
Qed.

Lemma matchAt_controllerPattern_finds (before N between suffix : string) :
  numeral N -> numeral suffix -> noLineFeed before -> noLineFeed between ->
  regexp.matchAt controllerPattern 0 (before ++ "nvme" ++ N ++ between ++ suffix) <> None.
Proof.
  intros [HN HNd] [Hs Hsd] Hb Hm.
  unfold regexp.matchAt.
  cbv beta iota zeta delta [controllerPattern regexp.step Nat.eqb].
  apply star_finds; [exact Hb|].
  destruct N as [|d ds]; [congruence|]. destruct suffix as [|e es]; [congruence|].
  simpl in HNd, Hsd. apply andb_prop in HNd, Hsd.
  destruct HNd as [Hd Hds], Hsd as [He Hes].
  cbn [String.append strings.TrimPrefix Ascii.eqb Bool.eqb].
  change (regexp.inClass regexp.Digit d) with (isDigit d). rewrite Hd.
  apply star_finds; [exact Hds|].
  apply star_finds; [exact Hm|].
  change (regexp.inClass regexp.Digit e) with (isDigit e). rewrite He.
  rewrite <- (append_nil_r es).
  apply star_finds; [exact Hes|]. discriminate.
Qed.

(** X1: [getControllerFromNs] returns exactly on the names that hold a
    controller token followed by a closing numeral and have no line
    feed; what it returns is "nvme" followed by digits of the name. *)
Theorem getControllerFromNs_succeeds_iff (ns : string) :
  ((exists controller, getControllerFromNs ns = Ok controller) <->
   (hasControllerToken ns /\ noLineFeed ns)) /\
  (forall controller,
      getControllerFromNs ns = Ok controller ->
      exists before N between suffix,
        ns = before ++ "nvme" ++ N ++ between ++ suffix /\
        numeral N /\ numeral suffix /\ controller = "nvme" ++ N).
Proof.
  split; [split|].
  - intros [controller H].
    destruct (getControllerFromNs_Ok _ _ H) as (b & N & m & x & -> & HN & Hx & Hb & Hm & _).
    split; [now exists b, N, m, x|].
    unfold noLineFeed in *. rewrite !all_append, Hb, Hm.
    destruct HN as [_ HN], Hx as [_ Hx].
    rewrite (all_weaken _ _ _ digit_not_line_feed HN),
      (all_weaken _ _ _ digit_not_line_feed Hx).
    reflexivity.
  - intros [(b & N & m & x & -> & HN & Hx) Hlines].
    unfold noLineFeed in Hlines. rewrite !all_append in Hlines.
    repeat (apply andb_prop in Hlines; destruct Hlines as [? Hlines]).
    rewrite getControllerFromNs_matchAt.
    destruct (regexp.matchAt controllerPattern 0 _) as [matches|] eqn:Hmatch.
    + destruct (matchAt_controllerPattern_lines _ _ Hmatch)
        as (b' & N' & m' & x' & _ & _ & _ & _ & _ & ->).
      cbn. eexists. reflexivity.
    + exfalso. revert Hmatch. apply matchAt_controllerPattern_finds; assumption.
  - intros controller H.
    destruct (getControllerFromNs_Ok _ _ H) as (b & N & m & x & H1 & HN & Hx & _ & _ & Hc).
    now exists b, N, m, x.
Qed.

Lemma getControllerFromNs_succeeds_witness :
  exists controller, getControllerFromNs "/dev/nvme0n1p2" = Ok controller.
Proof.
  apply (proj2 (proj1 (getControllerFromNs_succeeds_iff "/dev/nvme0n1p2"))).
  split; [|reflexivity].
  exists "/dev/", "0", "n1p", "2".
  split; [reflexivity|]. split; split; (discriminate || reflexivity).
Defined.











(** ** What every parsed record satisfies *)

Lemma forRange_Forall {A X} (P : A -> Prop) (f : list A -> X -> outcome (list A)) :
  (forall acc x acc', Forall P acc -> f acc x = Ok acc' -> Forall P acc') ->
  forall xs acc acc', Forall P acc -> forRange f xs acc = Ok acc' -> Forall P acc'.
Proof.
  intros Hf. induction xs as [|x xs IH]; intros acc acc' Hacc H.
  - cbn in H. now injection H as <-.
  - cbn [forRange] in H. destruct (f acc x) as [acc1|e] eqn:Hx; [|discriminate].
    cbn [bind] in H. exact (IH _ _ (Hf _ _ _ Hacc Hx) H).
Qed.

Lemma Forall_snoc {A} (P : A -> Prop) (l : list A) (x : A) :
  Forall P l -> P x -> Forall P (l ++ [x])%list.
Proof. intros Hl Hx. apply Forall_app. split; [exact Hl | now constructor]. Qed.

Lemma inferred_controller_named (ns controller : string) :
  getControllerFromNs ns = Ok controller -> controller <> EmptyString.
Proof.
  intros H. destruct (getControllerFromNs_Ok _ _ H) as (b & N & m & x & _ & _ & _ & _ & _ & ->).
  discriminate.
Qed.

Lemma appendSubsystemNamespace_fresh (acc : list nvmeNamespace) (namespace : gjson.Result.t)
      (acc' : list nvmeNamespace) :
  Forall freshRecord acc -> appendSubsystemNamespace acc namespace = Ok acc' ->
  Forall freshRecord acc'.
Proof.
  unfold appendSubsystemNamespace. intros Hacc H.
  destruct (getControllerFromNs _) as [controller|e] eqn:Hc; [|discriminate].
  cbn [bind] in H. injection H as <-.
  apply Forall_snoc; [exact Hacc|]. split; [|reflexivity].
  exact (inferred_controller_named _ _ Hc).
Qed.

Lemma appendController_fresh (acc : list nvmeNamespace) (controller : gjson.Result.t)
      (acc' : list nvmeNamespace) :
  Forall freshRecord acc -> appendController acc controller = Ok acc' ->
  Forall freshRecord acc'.
Proof.
  unfold appendController. intros Hacc H.
  destruct (String.eqb _ EmptyString) eqn:Hname; [discriminate|].
  apply String.eqb_neq in Hname.
  revert H. apply forRange_Forall; [|exact Hacc].
  intros l namespace l' Hl Hn. unfold appendControllerNamespace in Hn.
  injection Hn as <-. apply Forall_snoc; [exact Hl|]. split; [exact Hname | reflexivity].
Qed.

Lemma appendDevicePath_fresh (acc : list nvmeNamespace) (devicePath : gjson.Result.t)
      (acc' : list nvmeNamespace) :
  Forall freshRecord acc -> appendDevicePath acc devicePath = Ok acc' ->
  Forall freshRecord acc'.
Proof.
  unfold appendDevicePath. intros Hacc H.
  destruct (getControllerFromNs _) as [controller|e] eqn:Hc; [|discriminate].
  cbn [bind] in H. injection H as <-.
  apply Forall_snoc; [exact Hacc|]. split; [|reflexivity].
  exact (inferred_controller_named _ _ Hc).
Qed.

(** X4: every record that [getDeviceList] returns, for any document,
    names a controller (never the empty string) and has total capacity
    0, the capacity being filled in only afterwards. *)
Theorem getDeviceList_fresh (nvmeListOutput : gjson.text) (records : list nvmeNamespace) :
  getDeviceList nvmeListOutput = Ok records -> Forall freshRecord records.
Proof.
  destruct nvmeListOutput as [found|j]; [discriminate|].
  rewrite getDeviceList_branches.
  destruct (fromNamespaces j) as [bare|e] eqn:Hbare; [|discriminate].
  cbn [bind].
  assert (Hfresh : Forall freshRecord bare).
  { revert Hbare. unfold fromNamespaces, rangeSubsystemNamespaces.
    apply forRange_Forall; [|constructor].
    intros a1 x1 a1' H1. apply forRange_Forall; [|exact H1].
    intros a2 x2 a2' H2. apply forRange_Forall; [|exact H2].
    exact appendSubsystemNamespace_fresh. }
  destruct (controllersMatch j).
  - unfold rangeControllerNamespaces.
    apply forRange_Forall; [|exact Hfresh].
    intros a1 x1 a1' H1. apply forRange_Forall; [|exact H1].
    intros a2 x2 a2' H2. apply forRange_Forall; [|exact H2].
    exact appendController_fresh.
  - destruct (devicePathsMatch j); [|discriminate].
    unfold rangeDevicePaths. apply forRange_Forall; [|exact Hfresh].
    exact appendDevicePath_fresh.
Qed.

Lemma getDeviceList_fresh_witness :
  Forall freshRecord
         [namespaceRecord nvme9n1 "nvme9"; namespaceRecord nvme3n1 "nvme3"].
Proof.
  apply (getDeviceList_fresh (gjson.Document mixedDevicesJson)).
  vm_compute. reflexivity.
Defined.

(** ** Inventories of one host, in general *)

Lemma traverse_app {A B} (f : A -> outcome B) (a b : list A) :
  traverse f (a ++ b) =
  (xs <- traverse f a ;; ys <- traverse f b ;; Ok (xs ++ ys)%list).
Proof.
  induction a as [|x a IH].
  - cbn. destruct (traverse f b); reflexivity.
  - cbn [app traverse]. destruct (f x) as [y|e]; cbn [bind]; [|reflexivity].
    rewrite IH. destruct (traverse f a) as [xs|e]; cbn [bind]; [|reflexivity].
    destruct (traverse f b); reflexivity.
Qed.

Lemma forRange_bare_namespaces (fs : list namespaceFields) (namespaces : list gjson.json) :
  Forall2 namespaceEntry fs namespaces ->
  forall acc,
    forRange appendSubsystemNamespace (map Some namespaces) acc =
    (ys <- traverse inferredRecord fs ;; Ok (acc ++ ys)%list).
Proof.
  induction 1 as [|f namespace fs namespaces Hentry _ IH]; intros acc.
  - cbn. now rewrite app_nil_r.
  - cbn [map forRange traverse].
    rewrite (appendSubsystemNamespace_entry f namespace acc Hentry).
    unfold inferredRecord at 1.
    destruct (getControllerFromNs (NameSpace f)) as [controller|e]; cbn [bind];
      [|reflexivity].
    rewrite IH. destruct (traverse inferredRecord fs) as [ys|e]; cbn [bind]; [|reflexivity].
    now rewrite <- app_assoc.
Qed.

Lemma forRange_subsystems_bare (shapes : list subsystemShape) (subsystems : list gjson.json) :
  Forall2 subsystemOf shapes subsystems ->
  forall acc,
    forRange (fun deviceList namespaces =>
                forRange appendSubsystemNamespace (gjson.Result.Array namespaces) deviceList)
             (map Some (gjson.keep (map (gjson.find ["Namespaces"]) subsystems))) acc =
    (ys <- traverse inferredRecord (allBareNamespaces shapes) ;; Ok (acc ++ ys)%list).
Proof.
  unfold allBareNamespaces.
  induction 1 as [|shape subsystem shapes subsystems Hshape _ IH]; intros acc.
  - cbn. now rewrite app_nil_r.
  - destruct Hshape as (members & namespaces & entries & -> & Hn & Hfs & _ & _).
    cbn [map gjson.keep flat_map]. rewrite find_field.
    fold (gjson.keep (map (gjson.find ["Namespaces"]) subsystems)).
    rewrite (concat_cons (bareNamespaces shape)), traverse_app.
    destruct Hn as [Hn | [-> Hn]]; rewrite Hn.
    + cbn [app map forRange gjson.Result.Array].
      rewrite (forRange_bare_namespaces _ _ Hfs acc).
      destruct (traverse inferredRecord (bareNamespaces shape)) as [xs|e]; cbn [bind];
        [|reflexivity].
      rewrite IH.
      destruct (traverse inferredRecord (List.concat (map bareNamespaces shapes)));
        cbn [bind]; [|reflexivity].
      now rewrite <- app_assoc.
    + inversion Hfs as [Hempty|]. cbn [app traverse bind]. rewrite IH.
      destruct (traverse inferredRecord (List.concat (map bareNamespaces shapes)));
        reflexivity.
Qed.

Lemma forRange_controller_namespaces (controller : string) (fs : list namespaceFields)
      (namespaces : list gjson.json) :
  Forall2 namespaceEntry fs namespaces ->
  forall acc,
    forRange (appendControllerNamespace controller) (map Some namespaces) acc =
    Ok (acc ++ map (fun fields => namespaceRecord fields controller) fs)%list.
Proof.
  induction 1 as [|f namespace fs namespaces Hentry _ IH]; intros acc.
  - cbn. now rewrite app_nil_r.
  - cbn [map forRange].
    rewrite (appendControllerNamespace_entry f namespace controller acc Hentry).
    cbn [bind]. rewrite IH. now rewrite <- app_assoc.
Qed.

Lemma appendController_shape (shape : controllerShape) (entry : gjson.json)
      (acc : list nvmeNamespace) :
  controllerOf shape entry ->
  appendController acc (Some entry) =
  (records <- namedRecords shape ;; Ok (acc ++ records)%list).
Proof.
  intros (members & namespaces & -> & Hname & Hn & Hfs).
  unfold appendController, namedRecords. rewrite !Get_member by reflexivity.
  assert (gjson.Result.String (field "Controller" members) = ctrlName shape) as ->.
  { destruct Hname as [-> | [-> ->]]; reflexivity. }
  destruct (String.eqb (ctrlName shape) EmptyString); [reflexivity|]. cbn [bind].
  unfold controllerRecords.
  destruct Hn as [Hn | [-> Hn]]; rewrite Hn.
  - cbn [gjson.Result.Array]. exact (forRange_controller_namespaces _ _ _ Hfs acc).
  - inversion Hfs as [Hempty|]. cbn. now rewrite app_nil_r.
Qed.

Lemma forRange_controllers (shapes : list controllerShape) (entries : list gjson.json) :
  Forall2 controllerOf shapes entries ->
  forall acc,
    forRange appendController (map Some entries) acc =
    (records <- traverse namedRecords shapes ;; Ok (acc ++ List.concat records)%list).
Proof.
  induction 1 as [|shape entry shapes entries Hshape _ IH]; intros acc.
  - cbn. now rewrite app_nil_r.
  - cbn [map forRange traverse]. rewrite (appendController_shape _ _ acc Hshape).
    destruct (namedRecords shape) as [records|e]; cbn [bind]; [|reflexivity].
    rewrite IH. destruct (traverse namedRecords shapes) as [more|e]; cbn [bind];
      [|reflexivity].
    cbn [List.concat]. now rewrite <- app_assoc.
Qed.

Lemma forRange_subsystems_controllers (shapes : list subsystemShape)
      (subsystems : list gjson.json) :
  Forall2 subsystemOf shapes subsystems ->
  forall acc,
    forRange (fun deviceList controllers =>
                forRange appendController (gjson.Result.Array controllers) deviceList)
             (map Some (gjson.keep (map (gjson.find ["Controllers"]) subsystems))) acc =
    (records <- traverse namedRecords (allControllers shapes) ;;
     Ok (acc ++ List.concat records)%list).
Proof.
  unfold allControllers.
  induction 1 as [|shape subsystem shapes subsystems Hshape _ IH]; intros acc.
  - cbn. now rewrite app_nil_r.
  - destruct Hshape as (members & namespaces & entries & -> & _ & _ & Hc & Hcs).
    cbn [map gjson.keep flat_map]. rewrite find_field.
    fold (gjson.keep (map (gjson.find ["Controllers"]) subsystems)).
    rewrite (concat_cons (controllers shape)), traverse_app.
    destruct Hc as [Hc | [-> Hc]]; rewrite Hc.
    + cbn [app map forRange gjson.Result.Array].
      rewrite (forRange_controllers _ _ Hcs acc).
      destruct (traverse namedRecords (controllers shape)) as [xs|e]; cbn [bind];
        [|reflexivity].
      rewrite IH.
      destruct (traverse namedRecords (List.concat (map controllers shapes)));
        cbn [bind]; [|reflexivity].
      now rewrite List.concat_app, <- app_assoc.
    + inversion Hcs as [Hempty|]. cbn [app traverse bind]. rewrite IH.
      destruct (traverse namedRecords (List.concat (map controllers shapes)));
        reflexivity.
Qed.

(** What [getDeviceList] makes of an inventory of one host. *)
Lemma getDeviceList_host (j : gjson.json) (subsystems : list gjson.json)
      (shapes : list subsystemShape) :
  hostOf subsystems j ->
  Forall2 subsystemOf shapes subsystems ->
  getDeviceList (gjson.Document j) =
  (bare <- traverse inferredRecord (allBareNamespaces shapes) ;;
   attached <- traverse namedRecords (allControllers shapes) ;;
   Ok (bare ++ List.concat attached)%list).
Proof.
  intros Hhost Hshapes.
  rewrite getDeviceList_branches.
  unfold fromNamespaces, controllersMatch.
  change (gjson.Get (gjson.Document j) "Devices.#.Subsystems.#.Namespaces")
    with (gjson.find ["Devices"; "#"; "Subsystems"; "#"; "Namespaces"] j).
  change (gjson.Get (gjson.Document j) "Devices.#.Subsystems.#.Controllers")
    with (gjson.find ["Devices"; "#"; "Subsystems"; "#"; "Controllers"] j).
  rewrite !(host_queries _ _ _ Hhost).
  unfold rangeSubsystemNamespaces, rangeControllerNamespaces.
  cbn [gjson.Result.Array map forRange List.length Nat.ltb Nat.leb].
  rewrite (forRange_subsystems_bare _ _ Hshapes []).
  destruct (traverse inferredRecord (allBareNamespaces shapes)) as [bare|e];
    cbn [bind app]; [|reflexivity].
  rewrite (forRange_subsystems_controllers _ _ Hshapes bare).
  destruct (traverse namedRecords (allControllers shapes)); reflexivity.
Qed.

Lemma traverse_named (shapes : list controllerShape) :
  Forall namesItself shapes ->
  traverse namedRecords shapes = Ok (map controllerRecords shapes).
Proof.
  induction 1 as [|shape shapes Hnamed _ IH]; [reflexivity|].
  cbn [traverse map]. unfold namedRecords at 1.
  apply String.eqb_neq in Hnamed. rewrite Hnamed. cbn [bind]. now rewrite IH.
Qed.

Lemma traverse_nameless (shapes : list controllerShape) :
  Exists (fun shape => ctrlName shape = EmptyString) shapes ->
  traverse namedRecords shapes = Fatal NoControllerFound.
Proof.
  induction shapes as [|shape shapes IH]; intros Hex; [inversion Hex|].
  cbn [traverse]. unfold namedRecords at 1.
  destruct (String.eqb_spec (ctrlName shape) EmptyString) as [Heq|Hne]; [reflexivity|].
  cbn [bind]. rewrite IH; [reflexivity|].
  inversion Hex as [? ? Hhere|? ? Hthere]; [contradiction | exact Hthere].
Qed.

(** X5: an inventory of one host whose controllers all name themselves
    gives first the namespaces that the subsystems list themselves, in
    document order and each with the controller inferred from its name
    (the first name that cannot be inferred from ends the run), and then
    the namespaces listed under controllers, in document order and each
    with the name of its controller. *)
Theorem host_inventory (j : gjson.json) (subsystems : list gjson.json)
        (shapes : list subsystemShape) :
  hostOf subsystems j ->
  Forall2 subsystemOf shapes subsystems ->
  Forall namesItself (allControllers shapes) ->
  getDeviceList (gjson.Document j) =
  (bare <- traverse inferredRecord (allBareNamespaces shapes) ;;
   Ok (bare ++ List.concat (map controllerRecords (allControllers shapes)))%list).
Proof.
  intros Hhost Hshapes Hnamed.
  rewrite (getDeviceList_host _ _ _ Hhost Hshapes), (traverse_named _ Hnamed).
  reflexivity.
Qed.

Ltac shape_entry :=
  eexists; split; [reflexivity|]; repeat split.

Ltac shape_controller :=
  eexists _, _; split; [reflexivity|];
  split; [first [left; reflexivity | right; split; reflexivity]|];
  split; [left; reflexivity|];
  repeat (constructor; [shape_entry|]); constructor.

Ltac shape_subsystem :=
  eexists _, _, _; split; [reflexivity|];
  split; [first [left; reflexivity | right; split; reflexivity]|];
  split; [repeat (constructor; [shape_entry|]); constructor|];
  split; [left; reflexivity|];
  repeat (constructor; [shape_controller|]); constructor.

Lemma lightbitsSubsystem_shape : subsystemOf lightbitsShape lightbitsSubsystem.
Proof. shape_subsystem. Qed.

Lemma micronSubsystem_shape : subsystemOf micronShape micronSubsystem.
Proof. shape_subsystem. Qed.

Lemma namelessSubsystem_shape : subsystemOf namelessShape namelessSubsystem.
Proof. shape_subsystem. Qed.

Lemma host_inventory_witness :
  getDeviceList (gjson.Document mixedDevicesJson) =
  (bare <- traverse inferredRecord (allBareNamespaces [lightbitsShape; micronShape]) ;;
   Ok (bare ++ List.concat (map controllerRecords
                              (allControllers [lightbitsShape; micronShape])))%list).
Proof.
  apply (host_inventory mixedDevicesJson [lightbitsSubsystem; micronSubsystem]).
  - apply hostInventory_hostOf.
  - repeat constructor.
    + exact lightbitsSubsystem_shape.
    + exact micronSubsystem_shape.
  - repeat constructor; discriminate.
Defined.

(** X6: in an inventory of one host whose namespaces listed by the
    subsystems themselves all have names to infer a controller from, one
    controller without a name, or with the empty name, ends the run with
    the controller error, whatever the other controllers list and also
    when the nameless controller lists no namespace. *)
Theorem nameless_controller_is_fatal (j : gjson.json) (subsystems : list gjson.json)
        (shapes : list subsystemShape) (bare : list nvmeNamespace) :
  hostOf subsystems j ->
  Forall2 subsystemOf shapes subsystems ->
  traverse inferredRecord (allBareNamespaces shapes) = Ok bare ->
  Exists (fun shape => ctrlName shape = EmptyString) (allControllers shapes) ->
  getDeviceList (gjson.Document j) = Fatal NoControllerFound.
Proof.
  intros Hhost Hshapes Hbare Hnameless.
  rewrite (getDeviceList_host _ _ _ Hhost Hshapes), Hbare, (traverse_nameless _ Hnameless).
  reflexivity.
Qed.

Lemma nameless_controller_is_fatal_witness :
  getDeviceList (gjson.Document (hostInventory [lightbitsSubsystem; namelessSubsystem]))
  = Fatal NoControllerFound.
Proof.
  apply (nameless_controller_is_fatal _ [lightbitsSubsystem; namelessSubsystem]
           [lightbitsShape; namelessShape] [namespaceRecord nvme9n1 "nvme9"]).
  - apply hostInventory_hostOf.
  - repeat constructor.
    + exact lightbitsSubsystem_shape.
    + exact namelessSubsystem_shape.
  - reflexivity.
  - unfold allControllers. cbn. repeat (first [left; reflexivity | right]).
Defined.

(** ** Inventories with nothing to read *)

Lemma keep_unrecognised (key : string) (more : list string) (entries : list gjson.json) :
  key = "Subsystems" \/ key = "DevicePath" ->
  Forall unrecognised entries ->
  gjson.keep (map (gjson.find (key :: more)) entries) = [].
Proof.
  intros Hkey.
  induction 1 as [|entry entries (members & -> & Hs & Hp) _ IH]; [reflexivity|].
  cbn [map gjson.keep flat_map].
  destruct Hkey as [-> | ->].
  - now rewrite (find_no_member _ _ _ Hs).
  - now rewrite (find_no_member _ _ _ Hp).
Qed.

(** X7: an inventory without [Devices], with an empty [Devices], or
    whose entries have neither [Subsystems] nor [DevicePath] ends the run
    with the error that no device was found. *)
Theorem nothing_recognised_is_fatal (top : list (string * gjson.json)) :
  nothingRecognised top ->
  getDeviceList (gjson.Document (gjson.JObject top)) = Fatal NoDevicesFound.
Proof.
  intros Hnothing. unfold getDeviceList. cbn [gjson.Valid negb].
  change (gjson.Get (gjson.Document (gjson.JObject top))
                    "Devices.#.Subsystems.#.Namespaces")
    with (gjson.find ["Devices"; "#"; "Subsystems"; "#"; "Namespaces"]
                     (gjson.JObject top)).
  change (gjson.Get (gjson.Document (gjson.JObject top))
                    "Devices.#.Subsystems.#.Controllers")
    with (gjson.find ["Devices"; "#"; "Subsystems"; "#"; "Controllers"]
                     (gjson.JObject top)).
  change (gjson.Get (gjson.Document (gjson.JObject top)) "Devices.#.DevicePath")
    with (gjson.find ["Devices"; "#"; "DevicePath"] (gjson.JObject top)).
  destruct Hnothing as [Hnone | (entries & Hdevices & Hentries)].
  - rewrite !(find_no_member _ _ _ Hnone). reflexivity.
  - rewrite !(find_member _ _ _ _ _ Hdevices (find_each _ _ _)).
    rewrite !(keep_unrecognised _ _ _ (or_introl eq_refl) Hentries),
            (keep_unrecognised _ _ _ (or_intror eq_refl) Hentries).
    reflexivity.
Qed.

Lemma nothing_recognised_is_fatal_witness :
  getDeviceList
    (gjson.Document
       (gjson.JObject
          [ ("Devices",
             gjson.JArray [gjson.JObject [("NameSpace", gjson.JString "nvme0n1")]]) ]))
  = Fatal NoDevicesFound.
Proof.
  apply nothing_recognised_is_fatal.
  right. eexists. split; [reflexivity|].
  repeat constructor. eexists. split; [reflexivity|]. split; reflexivity.
Defined.

(** X8: an inventory of one host without subsystems, or whose subsystems
    list neither a namespace nor a controller, is no error: it gives no
    record. *)
Theorem empty_host_gives_no_record (j : gjson.json) (subsystems : list gjson.json)
        (shapes : list subsystemShape) :
  hostOf subsystems j ->
  Forall2 subsystemOf shapes subsystems ->
  allBareNamespaces shapes = [] ->
  allControllers shapes = [] ->
  getDeviceList (gjson.Document j) = Ok [].
Proof.
  intros Hhost Hshapes Hbare Hcontrollers.
  rewrite (getDeviceList_host _ _ _ Hhost Hshapes), Hbare, Hcontrollers. reflexivity.
Qed.

Lemma empty_host_gives_no_record_witness :
  getDeviceList (gjson.Document (hostInventory [])) = Ok [].
Proof.
  apply (empty_host_gives_no_record _ [] []).
  - apply hostInventory_hostOf.
  - constructor.
  - reflexivity.
  - reflexivity.
Defined.

(** ** One poll, from the inventory to the capacities *)











(** ** The map of capacities *)

Lemma andThen_Ok {A B} (m : run A) (f : A -> run B) (t t' : trace) (b : B) :
  andThen m f t = (Ok b, t') ->
  exists a t1, m t = (Ok a, t1) /\ f a t1 = (Ok b, t').
Proof.
  unfold andThen. destruct (m t) as [[a|e] t1]; [|discriminate].
  intros H. now exists a, t1.
Qed.

Lemma collectDevice_assigns (c : nvmeCollector) (os : system) (device : nvmeNamespace)
      (m m' : list (string * Z)) (t t' : trace) :
  collectDevice c os device m t = (Ok m', t') ->
  m' = assign m (nsController device) (nsTotalCapacity device).
Proof.
  unfold collectDevice. intros H.
  apply andThen_Ok in H as ([text|] & t1 & _ & H); [|discriminate].
  do 5 apply andThen_Ok in H as (_ & ? & _ & H).
  unfold ret in H. congruence.
Qed.

Lemma rangeDevices_capacities (c : nvmeCollector) (os : system) :
  forall (devices : list nvmeNamespace) (m m' : list (string * Z)) (t t' : trace),
    rangeDevices c os devices m t = (Ok m', t') -> m' = capacities devices m.
Proof.
  induction devices as [|device rest IH]; intros m m' t t' H.
  - unfold rangeDevices, ret in H. cbn. congruence.
  - cbn [rangeDevices] in H. apply andThen_Ok in H as (m1 & t1 & H1 & H).
    apply collectDevice_assigns in H1 as ->. cbn [capacities fold_left].
    exact (IH _ _ _ _ H).
Qed.

Lemma assign_keys (m : list (string * Z)) (key : string) (capacity : Z) :
  map fst (assign m key capacity) =
  if existsb (String.eqb key) (map fst m) then map fst m
  else (map fst m ++ [key])%list.
Proof.
  induction m as [|[k v] m IH]; [reflexivity|].
  cbn [assign map fst existsb]. rewrite (String.eqb_sym key k).
  destruct (String.eqb k key); cbn [orb map fst]; [reflexivity|].
  rewrite IH. now destruct (existsb (String.eqb key) (map fst m)).
Qed.

Lemma existsb_eqb (key : string) (keys : list string) :
  existsb (String.eqb key) keys = true <-> In key keys.
Proof.
  rewrite existsb_exists. split.
  - intros (k & Hin & Heq). apply String.eqb_eq in Heq. now subst.
  - intros Hin. exists key. split; [exact Hin | apply String.eqb_refl].
Qed.

Lemma assign_NoDup (m : list (string * Z)) (key : string) (capacity : Z) :
  NoDup (map fst m) -> NoDup (map fst (assign m key capacity)).
Proof.
  intros Hm. rewrite assign_keys.
  destruct (existsb (String.eqb key) (map fst m)) eqn:Hin; [exact Hm|].
  apply NoDup_app; [exact Hm | repeat constructor; intros [] |].
  intros k Hk [<-|[]]. apply existsb_eqb in Hk. congruence.
Qed.

Lemma assign_In_keys (m : list (string * Z)) (key : string) (capacity : Z) (k : string) :
  In k (map fst (assign m key capacity)) <-> k = key \/ In k (map fst m).
Proof.
  rewrite assign_keys.
  destruct (existsb (String.eqb key) (map fst m)) eqn:Hin.
  - apply existsb_eqb in Hin. split; [now right | intros [->|H]; assumption].
  - rewrite in_app_iff. cbn [In]. split.
    + intros [H|[<-|[]]]; [now right | now left].
    + intros [->|H]; [right; now left | now left].
Qed.

Lemma assign_In_same (m : list (string * Z)) (key : string) (capacity : Z) :
  In (key, capacity) (assign m key capacity).
Proof.
  induction m as [|[k v] m IH]; [now left|].
  cbn [assign]. destruct (String.eqb_spec k key) as [->|Hne]; [now left | now right].
Qed.

Lemma assign_In_other (m : list (string * Z)) (key : string) (capacity : Z)
      (k : string) (v : Z) :
  k <> key -> In (k, v) m -> In (k, v) (assign m key capacity).
Proof.
  intros Hne. induction m as [|[k0 v0] m IH]; [intros []|].
  cbn [assign]. intros [Heq|Hin].
  - injection Heq as -> ->. apply String.eqb_neq in Hne. rewrite Hne. now left.
  - destruct (String.eqb k0 key); right; [exact Hin | exact (IH Hin)].
Qed.

Lemma capacities_NoDup (devices : list nvmeNamespace) :
  forall m, NoDup (map fst m) -> NoDup (map fst (capacities devices m)).
Proof.
  unfold capacities. induction devices as [|device rest IH]; intros m Hm; [exact Hm|].
  cbn [fold_left]. apply IH, assign_NoDup, Hm.
Qed.

Lemma capacities_keys (devices : list nvmeNamespace) (k : string) :
  forall m,
    In k (map fst (capacities devices m)) <->
    In k (map fst m) \/ In k (map nsController devices).
Proof.
  unfold capacities. induction devices as [|device rest IH]; intros m.
  - cbn. tauto.
  - cbn [fold_left map In]. rewrite IH, assign_In_keys.
    split; intros H; repeat destruct H as [H|H]; subst; tauto.
Qed.

Lemma capacities_keep (devices : list nvmeNamespace) (k : string) (v : Z) :
  Forall (fun device => nsController device <> k) devices ->
  forall m, In (k, v) m -> In (k, v) (capacities devices m).
Proof.
  unfold capacities. induction 1 as [|device rest Hne _ IH]; intros m Hin; [exact Hin|].
  cbn [fold_left]. apply IH, assign_In_other; [congruence | exact Hin].
Qed.

(** X10: the map of capacities that the loop over the records leaves
    has one entry for each controller that the records name, and the
    entry of a controller holds the capacity of the last record that
    names it. *)
Theorem capacity_of_last_record (c : nvmeCollector) (os : system)
        (devices : list nvmeNamespace) (m : list (string * Z)) (t t' : trace) :
  rangeDevices c os devices [] t = (Ok m, t') ->
  NoDup (map fst m) /\
  (forall controller,
      In controller (map fst m) <-> In controller (map nsController devices)) /\
  (forall before device after,
      devices = (before ++ device :: after)%list ->
      Forall (fun other => nsController other <> nsController device) after ->
      In (nsController device, nsTotalCapacity device) m).
Proof.
  intros H. apply rangeDevices_capacities in H as ->.
  split; [apply capacities_NoDup; constructor|]. split.
  - intros controller. rewrite capacities_keys. cbn. tauto.
  - intros before device after -> Hafter. unfold capacities.
    rewrite fold_left_app. cbn [fold_left].
    apply (capacities_keep after _ _ Hafter), assign_In_same.
Qed.

Lemma capacity_of_last_record_witness :
  let m := [("nvme0", 3145728%Z)] in
  NoDup (map fst m) /\
  (forall controller,
      In controller (map fst m) <-> In controller (map nsController sharedController)) /\
  (forall before device after,
      sharedController = (before ++ device :: after)%list ->
      Forall (fun other => nsController other <> nsController device) after ->
      In (nsController device, nsTotalCapacity device) m).
Proof.
  apply (capacity_of_last_record
           (newNvmeCollector "celsius") twoNamespaces sharedController
           [("nvme0", 3145728%Z)] emptyTrace
           (snd (rangeDevices (newNvmeCollector "celsius") twoNamespaces
                              sharedController [] emptyTrace))).
  vm_compute. reflexivity.
Defined.

(** ** What any poll starts and sends, and how it may end *)

Section Within.

Variables (Pe : exit -> Prop) (Pm : Metric -> Prop) (Pc : list string -> Prop).

Lemma within_ret {A} (a : A) : within Pe Pm Pc (ret a).
Proof.
  intros t. exists [], []. cbn. rewrite !app_nil_r.
  repeat split; try constructor. discriminate.
Qed.

Lemma within_fatal {A} (e : exit) : Pe e -> within Pe Pm Pc (@fatal A e).
Proof.
  intros He t. exists [], []. cbn. rewrite !app_nil_r.
  repeat split; try constructor. now intros ? [= <-].
Qed.

Lemma within_lift {A} (m : outcome A) :
  (forall e, m = Fatal e -> Pe e) -> within Pe Pm Pc (lift m).
Proof.
  intros He t. exists [], []. cbn. rewrite !app_nil_r.
  repeat split; try constructor. exact He.
Qed.

Lemma within_send (metric : outcome Metric) :
  (forall m, metric = Ok m -> Pm m) -> (forall e, metric = Fatal e -> Pe e) ->
  within Pe Pm Pc (send metric).
Proof.
  intros Hm He t. unfold send. destruct metric as [m|e].
  - exists [m], []. cbn. rewrite app_nil_r.
    repeat split; try constructor; [now apply Hm | constructor | discriminate].
  - exists [], []. cbn. rewrite !app_nil_r.
    repeat split; try constructor. intros e' [= <-]. now apply He.
Qed.

Lemma within_Output (os : system) (argv : list string) :
  Pc argv -> within Pe Pm Pc (Output os argv).
Proof.
  intros Hc t. exists [], [argv]. cbn. rewrite app_nil_r.
  repeat split; try constructor; [exact Hc | constructor | discriminate].
Qed.

Lemma within_andThen {A B} (m : run A) (f : A -> run B) :
  within Pe Pm Pc m -> (forall a, within Pe Pm Pc (f a)) ->
  within Pe Pm Pc (andThen m f).
Proof.
  intros Hm Hf t. unfold andThen.
  destruct (Hm t) as (ms & cs & Hch & Hcommands & Hms & Hcs & He).
  destruct (m t) as [[a|e] t1]; cbn [fst snd] in *.
  - destruct (Hf a t1) as (ms' & cs' & Hch' & Hcommands' & Hms' & Hcs' & He').
    exists (ms ++ ms')%list, (cs ++ cs')%list.
    rewrite Hch', Hcommands', Hch, Hcommands, !app_assoc.
    split; [reflexivity|]. split; [reflexivity|].
    split; [apply Forall_app; now split|]. split; [apply Forall_app; now split|].
    exact He'.
  - exists ms, cs. repeat (split; [assumption|]).
    intros e' [= <-]. now apply He.
Qed.

End Within.

Lemma within_weaken {A} (Pe Pe' : exit -> Prop) (Pm Pm' : Metric -> Prop)
      (Pc Pc' : list string -> Prop) (m : run A) :
  (forall e, Pe e -> Pe' e) -> (forall x, Pm x -> Pm' x) -> (forall argv, Pc argv -> Pc' argv) ->
  within Pe Pm Pc m -> within Pe' Pm' Pc' m.
Proof.
  intros He Hm Hc H t.
  destruct (H t) as (ms & cs & Hch & Hcommands & Hms & Hcs & Hexit).
  exists ms, cs. repeat split; try assumption.
  - eapply Forall_impl; [exact Hm | exact Hms].
  - eapply Forall_impl; [exact Hc | exact Hcs].
  - intros e Hfatal. apply He, Hexit, Hfatal.
Qed.

Lemma within_rangeIdCtrl (os : system) (devices : list nvmeNamespace) :
  within (eq IdCtrlCommandError) (fun _ => False) isLookup (rangeIdCtrl os devices).
Proof.
  induction devices as [|device rest IH]; cbn [rangeIdCtrl].
  - apply within_ret.
  - apply within_andThen; [apply within_Output; now eexists|].
    intros [answer|]; [|now apply within_fatal].
    apply within_andThen; [exact IH | intros; apply within_ret].
Qed.

Lemma Collect_phases (c : nvmeCollector) (os : system) (t : trace) :
  Collect c os t = andThen (inventoryPhase os) (healthPhase c os) t.
Proof.
  unfold Collect, inventoryPhase, healthPhase, andThen, Output, lift, fatal.
  destruct (os (commands t) ["nvme"; "list"; "-o"; "json"]) as [inventory|]; [|reflexivity].
  destruct (getDeviceList inventory) as [devices|e]; [|reflexivity].
  destruct (rangeIdCtrl os devices _) as [[updated|e] t1]; reflexivity.
Qed.

Lemma forRange_exits {A S} (P : exit -> Prop) (f : S -> A -> outcome S) :
  (forall acc x e, f acc x = Fatal e -> P e) ->
  forall xs acc e, forRange f xs acc = Fatal e -> P e.
Proof.
  intros Hf. induction xs as [|x xs IH]; intros acc e H; [discriminate|].
  cbn [forRange] in H. destruct (f acc x) as [acc1|e1] eqn:Hx; cbn [bind] in H.
  - exact (IH _ _ H).
  - injection H as <-. exact (Hf _ _ _ Hx).
Qed.

Lemma getControllerFromNs_exits (ns : string) (e : exit) :
  getControllerFromNs ns = Fatal e -> early e.
Proof.
  unfold getControllerFromNs.
  destruct (1 <? List.length _)%nat; [discriminate|]. intros [= <-]. exact I.
Qed.

Lemma appendSubsystemNamespace_exits (acc : list nvmeNamespace) (x : gjson.Result.t)
      (e : exit) :
  appendSubsystemNamespace acc x = Fatal e -> early e.
Proof.
  unfold appendSubsystemNamespace.
  destruct (getControllerFromNs _) eqn:H; cbn [bind]; [discriminate|].
  intros [= <-]. exact (getControllerFromNs_exits _ _ H).
Qed.

Lemma appendController_exits (acc : list nvmeNamespace) (x : gjson.Result.t) (e : exit) :
  appendController acc x = Fatal e -> early e.
Proof.
  unfold appendController. destruct (String.eqb _ _); [intros [= <-]; exact I|].
  apply forRange_exits. intros ? ? ?. discriminate.
Qed.

Lemma appendDevicePath_exits (acc : list nvmeNamespace) (x : gjson.Result.t) (e : exit) :
  appendDevicePath acc x = Fatal e -> early e.
Proof.
  unfold appendDevicePath.
  destruct (getControllerFromNs _) eqn:H; cbn [bind]; [discriminate|].
  intros [= <-]. exact (getControllerFromNs_exits _ _ H).
Qed.

Lemma getDeviceList_exits (nvmeListOutput : gjson.text) (e : exit) :
  getDeviceList nvmeListOutput = Fatal e -> early e.
Proof.
  unfold getDeviceList.
  destruct (negb (gjson.Valid nvmeListOutput)); [intros [= <-]; exact I|].
  set (first := if (0 <? _)%nat then _ else _).
  assert (Hfirst : forall e, first = Fatal e -> early e).
  { unfold first. destruct (0 <? _)%nat; [|discriminate].
    unfold rangeSubsystemNamespaces.
    apply forRange_exits. intros ? ? ?.
    apply forRange_exits. intros ? ? ?.
    apply forRange_exits. exact appendSubsystemNamespace_exits. }
  destruct first as [bare|e1]; cbn [bind]; [|intros [= <-]; now apply Hfirst].
  destruct (0 <? _)%nat.
  - destruct (rangeControllerNamespaces _ _) eqn:H; cbn [bind]; [discriminate|].
    intros [= <-]. revert H. unfold rangeControllerNamespaces.
    apply forRange_exits. intros ? ? ?.
    apply forRange_exits. intros ? ? ?.
    apply forRange_exits. exact appendController_exits.
  - destruct (0 <? _)%nat; [|intros [= <-]; exact I].
    destruct (rangeDevicePaths _ _) eqn:H; cbn [bind]; [discriminate|].
    intros [= <-]. revert H. unfold rangeDevicePaths.
    apply forRange_exits. exact appendDevicePath_exits.
Qed.

Lemma within_inventoryPhase (os : system) :
  within early (fun _ => False) (fun argv => argv = nvmeList \/ isLookup argv)
         (inventoryPhase os).
Proof.
  unfold inventoryPhase.
  apply within_andThen; [apply within_Output; now left|].
  intros [inventory|]; [|now apply within_fatal].
  apply within_andThen; [apply within_lift, getDeviceList_exits|].
  intros devices.
  refine (within_weaken _ _ _ _ _ _ _ _ _ _ (within_rangeIdCtrl os devices));
    [now intros ? <- | trivial | now right].
Qed.

(** ** The descriptors that are announced *)

Lemma Describe_announced (scale : string) (ch : list Desc) :
  Describe (newNvmeCollector scale) ch = (Ok tt, (ch ++ announced scale)%list).
Proof.
  unfold announced, Describe.
  cbn [describeSensors maxTempSensors announce index nth_error Nat.sub
       nvmeTemperatureSensors newNvmeCollector map seq snd app].
  rewrite <- !app_assoc. reflexivity.
Qed.

Ltac announced_member :=
  unfold announced; cbn [Describe describeSensors maxTempSensors announce index nth_error
    Nat.sub nvmeTemperatureSensors newNvmeCollector map seq snd app];
  cbn [In]; repeat (first [left; reflexivity | right]).

Lemma sensorDescription_announced (scale : string) (i : nat) :
  (1 <= i <= maxTempSensors)%nat -> In (sensorDescription scale i) (announced scale).
Proof.
  unfold maxTempSensors. intros Hi.
  do 9 (destruct i as [|i]; [try lia; announced_member|]). lia.
Qed.

Lemma sample_described (scale : string) (result : gjson.text) (path : string)
      (row : Desc * ValueType * string) :
  In (fst (fst row)) (announced scale) ->
  List.length (variableLabels (fst (fst row))) = 1%nat ->
  described scale (sample scale result path row).
Proof.
  destruct row as [[description valType] field]. cbn [fst sample]. intros Hin Hl.
  split; cbn [desc labelValues List.length]; [exact Hin | now rewrite Hl].
Qed.

Lemma criticalWarningFields_described (scale : string) (result : gjson.text) (path : string) :
  Forall (described scale)
         (map (sample scale result path) (criticalWarningFields (newNvmeCollector scale))).
Proof.
  unfold criticalWarningFields. cbn [map].
  repeat (constructor; [apply sample_described; [announced_member | reflexivity]|]).
  constructor.
Qed.

Lemma healthFields_described (scale : string) (result : gjson.text) (path : string) :
  Forall (described scale)
         (map (sample scale result path) (healthFields (newNvmeCollector scale))).
Proof.
  unfold healthFields. cbn [map].
  repeat (constructor; [apply sample_described; [announced_member | reflexivity]|]).
  constructor.
Qed.

Lemma sensorSamples_described (scale : string) (result : gjson.text) (path : string)
      (k : nat) :
  (k <= maxTempSensors)%nat ->
  Forall (described scale) (map (sensorSample scale result path) (seq 1 k)).
Proof.
  intros Hk. apply Forall_map, Forall_forall. intros i Hi. apply in_seq in Hi.
  apply sample_described; [|reflexivity].
  apply sensorDescription_announced. lia.
Qed.

Lemma criticalWarningSamples_described (scale : string) (result : gjson.text) (path : string) :
  Forall (described scale) (criticalWarningSamples scale result path).
Proof.
  unfold criticalWarningSamples.
  destruct (gjson.Result.Type_ _);
    lazymatch goal with
    | |- Forall _ (_ ++ _)%list =>
        apply Forall_app; split;
        [apply criticalWarningFields_described
        | apply sensorSamples_described, sensorsFound_le]
    | |- _ =>
        constructor; [apply sample_described; [announced_member | reflexivity]
                     | constructor]
    end.
Qed.

Lemma within_send_described (Pe : exit -> Prop) (Pc : list string -> Prop)
      (scale : string) (description : Desc) (valueType : ValueType) (value : float)
      (labels : list string) :
  In description (announced scale) ->
  List.length labels = List.length (variableLabels description) ->
  within Pe (described scale) Pc
         (send (MustNewConstMetric description valueType value labels)).
Proof.
  intros Hin Hl. unfold MustNewConstMetric. rewrite Hl, Nat.eqb_refl.
  apply within_send; [|discriminate].
  intros m [= <-]. split; [exact Hin | exact Hl].
Qed.

Lemma within_collectSmartLog (scale : string) (text : gjson.text) (path : string) :
  within (eq (SmartLogJSONInvalid path)) (described scale) (fun _ => False)
         (collectSmartLog (newNvmeCollector scale) text path).
Proof.
  intros t. destruct text as [found|j].
  - exists [], []. cbn. rewrite !app_nil_r.
    repeat (split; [first [reflexivity | constructor]|]). now intros e [= <-].
  - rewrite collectSmartLog_sent.
    exists (criticalWarningSamples scale (gjson.Document j) path
            ++ map (sample scale (gjson.Document j) path)
                   (healthFields (newNvmeCollector scale)))%list, [].
    cbn [fst snd sent ch commands].
    rewrite app_nil_r. split; [reflexivity|]. split; [reflexivity|].
    split; [|split; [constructor | discriminate]].
    apply Forall_app. split.
    + apply criticalWarningSamples_described.
    + apply healthFields_described.
Qed.

Lemma within_collectDevice (scale : string) (os : system) (device : nvmeNamespace)
      (m : list (string * Z)) :
  within late (described scale) isSmartLog
         (collectDevice (newNvmeCollector scale) os device m).
Proof.
  unfold collectDevice.
  apply within_andThen; [apply within_Output; now eexists|].
  intros [text|]; [|apply within_fatal; eexists; now left].
  apply within_andThen.
  { refine (within_weaken _ _ _ _ _ _ _ _ _ _
                          (within_collectSmartLog scale text (devicePath device)));
      [intros ? <-; eexists; now right | trivial | intros ? []]. }
  intros _.
  repeat (apply within_andThen;
          [apply within_send_described; [announced_member | reflexivity] | intros _]).
  apply within_ret.
Qed.

Lemma within_rangeDevices (scale : string) (os : system) (devices : list nvmeNamespace) :
  forall m,
    within late (described scale) isSmartLog
           (rangeDevices (newNvmeCollector scale) os devices m).
Proof.
  induction devices as [|device rest IH]; intros m; cbn [rangeDevices].
  - apply within_ret.
  - apply within_andThen; [apply within_collectDevice | intros m'; apply IH].
Qed.

Lemma within_rangeCapacity (scale : string) (m : list (string * Z)) :
  within late (described scale) isSmartLog (rangeCapacity (newNvmeCollector scale) m).
Proof.
  induction m as [|[controller capacity] m IH]; cbn [rangeCapacity].
  - apply within_ret.
  - apply within_andThen; [|intros _; exact IH].
    apply within_send_described; [announced_member | reflexivity].
Qed.

Lemma within_healthPhase (scale : string) (os : system) (devices : list nvmeNamespace) :
  within late (described scale) isSmartLog
         (healthPhase (newNvmeCollector scale) os devices).
Proof.
  unfold healthPhase.
  apply within_andThen; [apply within_rangeDevices | intros m; apply within_rangeCapacity].
Qed.

Lemma within_Collect (scale : string) (os : system) :
  within (fun e => early e \/ late e) (described scale) knownCommand
         (Collect (newNvmeCollector scale) os).
Proof.
  intros t. rewrite Collect_phases. revert t.
  apply within_andThen.
  - refine (within_weaken _ _ _ _ _ _ _ _ _ _ (within_inventoryPhase os));
      [now left | intros ? [] |].
    intros argv [H|H]; [now left | right; now left].
  - intros devices.
    refine (within_weaken _ _ _ _ _ _ _ _ _ _ (within_healthPhase scale os devices));
      [now right | trivial |].
    intros argv H. right. now right.
Qed.

Lemma early_not_late (e : exit) : early e -> late e -> False.
Proof. intros He (path & [H | H]); subst e; exact He. Qed.


(** X11: for the collector that [newNvmeCollector] builds, [Describe]
    never fails; it announces the same 41 descriptors whatever was sent
    before, and their names are pairwise distinct. *)
Theorem Describe_names_distinct (scale : string) :
  (forall ch, Describe (newNvmeCollector scale) ch = (Ok tt, (ch ++ announced scale)%list)) /\
  List.length (announced scale) = 41%nat /\
  NoDup (map fqName (announced scale)).
Proof.
  split; [exact (Describe_announced scale)|]. split; [reflexivity|].
  assert (H : nodup string_dec (map fqName (announced scale))
              = map fqName (announced scale)) by (vm_compute; reflexivity).
  rewrite <- H. apply NoDup_nodup.
Qed.

(** X12: whatever the machine answers and however the poll ends, every
    metric that [Collect] sends carries a descriptor that [Describe]
    announces, with one value for each label of the descriptor. *)
Theorem Collect_sends_described (scale : string) (os : system) (t : trace) :
  exists metrics,
    ch (snd (Collect (newNvmeCollector scale) os t)) = (ch t ++ metrics)%list /\
    Forall (described scale) metrics.
Proof.
  destruct (within_Collect scale os t) as (metrics & argvs & Hch & _ & Hm & _).
  now exists metrics.
Qed.



(** X14: a poll that ends with an error of the inventory or of a
    capacity lookup has sent no metric and has started no smart-log. *)
Theorem early_exit_sends_nothing (scale : string) (os : system) (t t' : trace) (e : exit) :
  Collect (newNvmeCollector scale) os t = (Fatal e, t') ->
  early e ->
  ch t' = ch t /\
  exists argvs,
    commands t' = (commands t ++ argvs)%list /\
    Forall (fun argv => argv = nvmeList \/ isLookup argv) argvs.
Proof.
  intros H He. rewrite Collect_phases in H. unfold andThen in H.
  destruct (within_inventoryPhase os t) as (metrics & argvs & Hch & Hcommands & Hm & Hc & _).
  destruct (inventoryPhase os t) as [[devices|e1] t1]; cbn [fst snd] in *.
  - destruct (within_healthPhase scale os devices t1) as (_ & _ & _ & _ & _ & _ & Hlate).
    rewrite H in Hlate. destruct (early_not_late e He (Hlate e eq_refl)).
  - injection H as <- <-. destruct metrics as [|m metrics]; [|now inversion Hm].
    rewrite app_nil_r in Hch. split; [exact Hch | now exists argvs].
Qed.

Lemma early_exit_sends_nothing_witness :
  ch (snd (Collect (newNvmeCollector "celsius") silentControllers emptyTrace))
  = ch emptyTrace /\
  exists argvs,
    commands (snd (Collect (newNvmeCollector "celsius") silentControllers emptyTrace))
    = (commands emptyTrace ++ argvs)%list /\
    Forall (fun argv => argv = nvmeList \/ isLookup argv) argvs.
Proof.
  apply (early_exit_sends_nothing "celsius" silentControllers emptyTrace _
                                  IdCtrlCommandError).
  - vm_compute. reflexivity.
  - exact I.
Defined.

(** ** Which readings are converted *)

(** X15: of the fields that [Collect] reads by a fixed name, only
    temperature is converted by the scale: every other one, temp_threshold
    and the thermal times among them, is sent as it is read, whatever the
    scale. *)
Theorem only_temperature_is_converted
        (c : nvmeCollector) (description : Desc) (valType : ValueType)
        (result : gjson.text) (field label : string) :
  In field (fieldsRead c) ->
  field <> "temperature" ->
  makeMetric c description valType result field label =
  MustNewConstMetric description valType
                     (gjson.Result.Float (gjson.Get result field)) [label].
Proof.
  intros Hin Hne. rewrite makeMetric_reading. unfold reading.
  cbn in Hin.
  repeat (destruct Hin as [<- | Hin]; [first [reflexivity | now destruct Hne]|]).
  destruct Hin.
Qed.

Lemma only_temperature_is_converted_witness :
  makeMetric (newNvmeCollector "celsius")
             (nvmeTempThreshold (newNvmeCollector "celsius")) GaugeValue
             (gjson.Document (gjson.JObject [("temp_threshold", gjson.JNumber 343)]))
             "temp_threshold" "/dev/nvme0n1" =
  MustNewConstMetric (nvmeTempThreshold (newNvmeCollector "celsius")) GaugeValue
                     (gjson.Result.Float
                        (gjson.Get
                           (gjson.Document
                              (gjson.JObject [("temp_threshold", gjson.JNumber 343)]))
                           "temp_threshold"))
                     ["/dev/nvme0n1"].
Proof.
  apply only_temperature_is_converted.
  - simpl. right. right. left. reflexivity.
  - discriminate.
Defined.

(** ** The earlier [getDeviceList] *)

Lemma rangeAppend_map (f : gjson.Result.t -> string) (xs : list gjson.Result.t) :
  forall acc, previous.rangeAppend f xs acc = (acc ++ map f xs)%list.
Proof.
  unfold previous.rangeAppend.
  induction xs as [|x xs IH]; intros acc; cbn [fold_left map].
  - now rewrite app_nil_r.
  - rewrite IH, <- app_assoc. reflexivity.
Qed.

Lemma host_queries_path (subsystems : list gjson.json) (j : gjson.json)
      (part : string) (more : list string) :
  hostOf subsystems j ->
  gjson.find ("Devices" :: "#" :: "Subsystems" :: "#" :: part :: more) j =
  Some (gjson.JArray
          [gjson.JArray (gjson.keep (map (gjson.find (part :: more)) subsystems))]).
Proof.
  intros (top & host & -> & Hdevices & Hsubsystems).
  rewrite (find_member _ _ _ _ _ Hdevices (find_each _ _ _)).
  cbn [map gjson.keep flat_map].
  rewrite (find_member _ _ _ _ _ Hsubsystems (find_each _ _ _)).
  reflexivity.
Qed.

Lemma keep_names (fs : list namespaceFields) (namespaces : list gjson.json) :
  Forall2 namespaceEntry fs namespaces ->
  gjson.keep (map (gjson.find ["NameSpace"]) namespaces) =
  map (fun fields => gjson.JString (NameSpace fields)) fs.
Proof.
  induction 1 as [|f namespace fs namespaces (members & -> & Hname & _) _ IH];
    [reflexivity|].
  cbn [map gjson.keep flat_map]. rewrite find_field, Hname. cbn [app map].
  f_equal. exact IH.
Qed.

Lemma devicePaths_app (a b : list namespaceFields) :
  devicePaths (a ++ b) = (devicePaths a ++ devicePaths b)%list.
Proof. apply map_app. Qed.

Lemma devicePaths_names (fs : list namespaceFields) :
  map (fun namespace => "/dev/" ++ gjson.Result.String namespace)
      (map Some (map (fun fields => gjson.JString (NameSpace fields)) fs)) =
  devicePaths fs.
Proof. unfold devicePaths. rewrite !map_map. reflexivity. Qed.

(** The loop over what [Namespaces.#.NameSpace] finds in each entry of a
    list, for entries that list namespaces. *)
Lemma fold_listed {S} (proj : S -> list namespaceFields) (R : S -> gjson.json -> Prop) :
  (forall s e, R s e ->
               exists members namespaces,
                 e = gjson.JObject members /\
                 lists "Namespaces" members namespaces /\
                 Forall2 namespaceEntry (proj s) namespaces) ->
  forall shapes entries,
    Forall2 R shapes entries ->
    forall acc,
      fold_left (fun deviceList namespaces =>
                   previous.rangeAppend
                     (fun namespace => "/dev/" ++ gjson.Result.String namespace)
                     (gjson.Result.Array namespaces) deviceList)
                (map Some (gjson.keep
                             (map (gjson.find ["Namespaces"; "#"; "NameSpace"]) entries)))
                acc =
      (acc ++ devicePaths (List.concat (map proj shapes)))%list.
Proof.
  intros HR. induction 1 as [|s e shapes entries Hse _ IH]; intros acc.
  - cbn. now rewrite app_nil_r.
  - destruct (HR _ _ Hse) as (members & namespaces & -> & Hn & Hfs).
    cbn [map gjson.keep flat_map].
    fold (gjson.keep (map (gjson.find ["Namespaces"; "#"; "NameSpace"]) entries)).
    rewrite (concat_cons (proj s)), devicePaths_app.
    destruct Hn as [Hn | [-> Hn]].
    + rewrite (find_member _ _ _ _ _ Hn (find_each _ _ _)), (keep_names _ _ Hfs).
      cbn [app map fold_left gjson.Result.Array].
      rewrite rangeAppend_map, IH, devicePaths_names, <- app_assoc. reflexivity.
    + rewrite (find_no_member _ _ _ Hn). inversion Hfs as [Hempty|].
      cbn [app map devicePaths]. exact (IH acc).
Qed.

Lemma fold_bare_paths (shapes : list subsystemShape) (subsystems : list gjson.json) :
  Forall2 subsystemOf shapes subsystems ->
  forall acc,
    fold_left (fun deviceList namespaces =>
                 previous.rangeAppend
                   (fun namespace => "/dev/" ++ gjson.Result.String namespace)
                   (gjson.Result.Array namespaces) deviceList)
              (map Some (gjson.keep
                           (map (gjson.find ["Namespaces"; "#"; "NameSpace"]) subsystems)))
              acc =
    (acc ++ devicePaths (allBareNamespaces shapes))%list.
Proof.
  apply (fold_listed bareNamespaces subsystemOf).
  intros s e (members & namespaces & entries & -> & Hn & Hfs & _).
  now exists members, namespaces.
Qed.

Lemma fold_controller_paths (shapes : list controllerShape) (entries : list gjson.json) :
  Forall2 controllerOf shapes entries ->
  forall acc,
    fold_left (fun deviceList namespaces =>
                 previous.rangeAppend
                   (fun namespace => "/dev/" ++ gjson.Result.String namespace)
                   (gjson.Result.Array namespaces) deviceList)
              (map Some (gjson.keep
                           (map (gjson.find ["Namespaces"; "#"; "NameSpace"]) entries)))
              acc =
    (acc ++ devicePaths (List.concat (map ctrlNamespaces shapes)))%list.
Proof.
  apply (fold_listed ctrlNamespaces controllerOf).
  intros s e (members & namespaces & -> & _ & Hn & Hfs).
  now exists members, namespaces.
Qed.

Lemma fold_attached_paths (shapes : list subsystemShape) (subsystems : list gjson.json) :
  Forall2 subsystemOf shapes subsystems ->
  forall acc,
    fold_left (fun deviceList controllers =>
                 fold_left (fun deviceList namespaces =>
                              previous.rangeAppend
                                (fun namespace => "/dev/" ++ gjson.Result.String namespace)
                                (gjson.Result.Array namespaces) deviceList)
                           (gjson.Result.Array controllers) deviceList)
              (map Some
                   (gjson.keep
                      (map (gjson.find ["Controllers"; "#"; "Namespaces"; "#"; "NameSpace"])
                           subsystems)))
              acc =
    (acc ++ devicePaths (allControllerNamespaces shapes))%list.
Proof.
  unfold allControllerNamespaces, allControllers.
  induction 1 as [|shape subsystem shapes subsystems Hshape _ IH]; intros acc.
  - cbn. now rewrite app_nil_r.
  - destruct Hshape as (members & namespaces & entries & -> & _ & _ & Hc & Hcs).
    cbn [map gjson.keep flat_map].
    fold (gjson.keep
            (map (gjson.find ["Controllers"; "#"; "Namespaces"; "#"; "NameSpace"])
                 subsystems)).
    rewrite (concat_cons (controllers shape)), (map_app ctrlNamespaces), List.concat_app.
    rewrite devicePaths_app.
    destruct Hc as [Hc | [-> Hc]].
    + rewrite (find_member _ _ _ _ _ Hc (find_each _ _ _)).
      cbn [app map fold_left gjson.Result.Array].
      rewrite (fold_controller_paths _ _ Hcs), IH.
      now rewrite <- app_assoc.
    + rewrite (find_no_member _ _ _ Hc). inversion Hcs as [Hempty|].
      cbn [app map List.concat devicePaths]. exact (IH acc).
Qed.

(** What the earlier [getDeviceList] makes of an inventory of one host. *)
Lemma previous_getDeviceList_host (j : gjson.json) (subsystems : list gjson.json)
      (shapes : list subsystemShape) :
  hostOf subsystems j ->
  Forall2 subsystemOf shapes subsystems ->
  devicePathsMatch j = false ->
  previous.getDeviceList (gjson.Document j) =
  Ok (match allBareNamespaces shapes with
      | [] => devicePaths (allControllerNamespaces shapes)
      | _ :: _ => devicePaths (allBareNamespaces shapes)
      end).
Proof.
  intros Hhost Hshapes Hpaths. unfold previous.getDeviceList.
  cbn [gjson.Valid negb]. unfold devicePathsMatch in Hpaths. rewrite Hpaths.
  change (gjson.Get (gjson.Document j) "Devices.#.Subsystems.#.Namespaces.#.NameSpace")
    with (gjson.find ["Devices"; "#"; "Subsystems"; "#"; "Namespaces"; "#"; "NameSpace"] j).
  change (gjson.Get (gjson.Document j)
                    "Devices.#.Subsystems.#.Controllers.#.Namespaces.#.NameSpace")
    with (gjson.find ["Devices"; "#"; "Subsystems"; "#"; "Controllers"; "#";
                      "Namespaces"; "#"; "NameSpace"] j).
  rewrite !(host_queries_path _ _ _ _ Hhost).
  cbn [gjson.Result.Array map fold_left List.length Nat.ltb Nat.leb].
  rewrite (fold_bare_paths _ _ Hshapes []), (fold_attached_paths _ _ Hshapes).
  cbn [app]. destruct (allBareNamespaces shapes) as [|f fs]; reflexivity.
Qed.

(** X16: the earlier [getDeviceList], for an inventory of one host
    without DevicePath, returns the device paths of the namespaces that
    the subsystems list themselves when there is one, and leaves out the
    namespaces listed under controllers; only when the subsystems list
    none does it return those listed under controllers.  It reads no
    controller name, and is never fatal on such an inventory. *)
Theorem previous_host_inventory (j : gjson.json) (subsystems : list gjson.json)
        (shapes : list subsystemShape) :
  hostOf subsystems j ->
  Forall2 subsystemOf shapes subsystems ->
  devicePathsMatch j = false ->
  (allBareNamespaces shapes <> [] ->
   previous.getDeviceList (gjson.Document j) =
   Ok (devicePaths (allBareNamespaces shapes))) /\
  (allBareNamespaces shapes = [] ->
   previous.getDeviceList (gjson.Document j) =
   Ok (devicePaths (allControllerNamespaces shapes))).
Proof.
  intros Hhost Hshapes Hpaths.
  rewrite (previous_getDeviceList_host _ _ _ Hhost Hshapes Hpaths).
  split.
  - intros Hsome. destruct (allBareNamespaces shapes); [congruence | reflexivity].
  - intros ->. reflexivity.
Qed.

Lemma previous_host_inventory_witness :
  previous.getDeviceList (gjson.Document mixedDevicesJson) = Ok ["/dev/nvme9n1"] /\
  previous.getDeviceList (gjson.Document (hostInventory [micronSubsystem]))
  = Ok ["/dev/nvme3n1"].
Proof.
  split.
  - apply (previous_host_inventory mixedDevicesJson [lightbitsSubsystem; micronSubsystem]
                                   [lightbitsShape; micronShape]).
    + apply hostInventory_hostOf.
    + repeat constructor.
      * exact lightbitsSubsystem_shape.
      * exact micronSubsystem_shape.
    + reflexivity.
    + discriminate.
  - apply (previous_host_inventory (hostInventory [micronSubsystem]) [micronSubsystem]
                                   [micronShape]).
    + apply hostInventory_hostOf.
    + repeat constructor. exact micronSubsystem_shape.
    + reflexivity.
    + reflexivity.
Defined.

Lemma keep_paths (paths : list string) (entries : list gjson.json) :
  Forall2 pathEntry paths entries ->
  gjson.keep (map (gjson.find ["DevicePath"]) entries) = map gjson.JString paths.
Proof.
  induction 1 as [|path entry paths entries (members & -> & Hpath) _ IH]; [reflexivity|].
  cbn [map gjson.keep flat_map]. rewrite find_field, Hpath. cbn [app].
  f_equal. exact IH.
Qed.

(** X17: the earlier [getDeviceList] returns the DevicePath of the
    entries of [Devices] as they are, when each entry has one and there
    is an entry: it looks at nothing else in the entries, subsystems
    included, and checks no name. *)
Theorem previous_device_paths_first
        (top : list (string * gjson.json)) (entries : list gjson.json)
        (paths : list string) :
  field "Devices" top = Some (gjson.JArray entries) ->
  Forall2 pathEntry paths entries ->
  paths <> [] ->
  previous.getDeviceList (gjson.Document (gjson.JObject top)) = Ok paths.
Proof.
  intros Hdevices Hentries Hsome. unfold previous.getDeviceList.
  cbn [gjson.Valid negb].
  change (gjson.Get (gjson.Document (gjson.JObject top)) "Devices.#.DevicePath")
    with (gjson.find ["Devices"; "#"; "DevicePath"] (gjson.JObject top)).
  rewrite (find_member _ _ _ _ _ Hdevices (find_each _ _ _)), (keep_paths _ _ Hentries).
  cbn [gjson.Result.Array]. rewrite !length_map.
  destruct paths as [|path paths]; [congruence|].
  cbn [List.length Nat.ltb Nat.leb].
  rewrite rangeAppend_map, !map_map. cbn [app gjson.Result.String].
  now rewrite map_id.
Qed.

Lemma previous_device_paths_first_witness :
  previous.getDeviceList (gjson.Document pathsDevicesJson)
  = Ok ["/dev/nvme0n1"; "/dev/disk"].
Proof.
  unfold pathsDevicesJson.
  eapply (previous_device_paths_first _ _ ["/dev/nvme0n1"; "/dev/disk"]).
  - reflexivity.
  - repeat constructor; eexists; split; reflexivity.
  - discriminate.
Defined.

Lemma traverse_inferred_paths (fs : list namespaceFields) :
  forall bare,
    traverse inferredRecord fs = Ok bare -> map devicePath bare = devicePaths fs.
Proof.
  induction fs as [|f fs IH]; intros bare H.
  - injection H as <-. reflexivity.
  - cbn [traverse] in H. unfold inferredRecord at 1 in H.
    destruct (getControllerFromNs (NameSpace f)) as [controller|e]; [|discriminate].
    cbn [bind] in H. destruct (traverse inferredRecord fs) as [rest|e]; [|discriminate].
    cbn [bind] in H. injection H as <-. cbn [map devicePaths]. f_equal.
    exact (IH rest eq_refl).
Qed.

Lemma traverse_named_paths (shapes : list controllerShape) :
  forall attached,
    traverse namedRecords shapes = Ok attached ->
    map devicePath (List.concat attached) =
    devicePaths (List.concat (map ctrlNamespaces shapes)).
Proof.
  induction shapes as [|shape shapes IH]; intros attached H.
  - injection H as <-. reflexivity.
  - cbn [traverse] in H. unfold namedRecords at 1 in H.
    destruct (String.eqb (ctrlName shape) EmptyString); [discriminate|].
    cbn [bind] in H. destruct (traverse namedRecords shapes) as [rest|e]; [|discriminate].
    cbn [bind] in H. injection H as <-.
    cbn [map List.concat]. rewrite map_app, devicePaths_app, (IH rest eq_refl).
    f_equal. unfold controllerRecords, devicePaths. rewrite map_map. reflexivity.
Qed.

(** X18: on an inventory of one host without DevicePath for which
    [getDeviceList] returns records, the earlier [getDeviceList] returns
    a beginning of the device paths of these records, in the same order;
    it returns all of them exactly when the namespaces are all listed by
    the subsystems themselves or all listed under controllers. *)
Theorem previous_returns_a_beginning (j : gjson.json) (subsystems : list gjson.json)
        (shapes : list subsystemShape) (records : list nvmeNamespace) :
  hostOf subsystems j ->
  Forall2 subsystemOf shapes subsystems ->
  devicePathsMatch j = false ->
  getDeviceList (gjson.Document j) = Ok records ->
  exists paths dropped,
    previous.getDeviceList (gjson.Document j) = Ok paths /\
    map devicePath records = (paths ++ dropped)%list /\
    (dropped = [] <->
     allBareNamespaces shapes = [] \/ allControllerNamespaces shapes = []).
Proof.
  intros Hhost Hshapes Hpaths Hrecords.
  rewrite (getDeviceList_host _ _ _ Hhost Hshapes) in Hrecords.
  rewrite (previous_getDeviceList_host _ _ _ Hhost Hshapes Hpaths).
  destruct (traverse inferredRecord (allBareNamespaces shapes)) as [bare|e] eqn:Hbare;
    [|discriminate].
  cbn [bind] in Hrecords.
  destruct (traverse namedRecords (allControllers shapes)) as [attached|e] eqn:Hattached;
    [|discriminate].
  cbn [bind] in Hrecords. injection Hrecords as <-.
  rewrite map_app, (traverse_inferred_paths _ _ Hbare),
    (traverse_named_paths _ _ Hattached).
  fold (allControllerNamespaces shapes).
  destruct (allBareNamespaces shapes) as [|f fs].
  - exists (devicePaths (allControllerNamespaces shapes)), [].
    rewrite app_nil_r. split; [reflexivity|]. split; [reflexivity|].
    split; [now left | reflexivity].
  - exists (devicePaths (f :: fs)), (devicePaths (allControllerNamespaces shapes)).
    split; [reflexivity|]. split; [reflexivity|].
    split.
    + intros Hnone. right. now apply map_eq_nil in Hnone.
    + intros [Hnone | ->]; [discriminate | reflexivity].
Qed.

Lemma previous_returns_a_beginning_witness :
  exists paths dropped,
    previous.getDeviceList (gjson.Document mixedDevicesJson) = Ok paths /\
    map devicePath [namespaceRecord nvme9n1 "nvme9"; namespaceRecord nvme3n1 "nvme3"]
    = (paths ++ dropped)%list /\
    (dropped = [] <->
     allBareNamespaces [lightbitsShape; micronShape] = [] \/
     allControllerNamespaces [lightbitsShape; micronShape] = []).
Proof.
  apply (previous_returns_a_beginning mixedDevicesJson
           [lightbitsSubsystem; micronSubsystem]).
  - apply hostInventory_hostOf.
  - repeat constructor.
    + exact lightbitsSubsystem_shape.
    + exact micronSubsystem_shape.
  - reflexivity.
  - reflexivity.
Defined.
